(** * ego.py: a shallow embedding and its verified properties

    The program is a small App Engine front end written in Python 2.  It
    fetches FriendFeed profiles, caches results in memcache through the
    [cacheable] decorator, and renders per-user documents.

    Python values are embedded as the inductive [pyval]; exceptions are the
    [Raise] branch of [result]; code that touches memcache, the network or
    the template engine runs in the state monad [M] over a [world] that
    holds the cache contents and a trace of the effects performed so far. *)

From Stdlib Require Import ZArith String Ascii List Bool Lia.
From stdpp Require Import base gmap strings list option.

Set Warnings "-register-all".
Open Scope string_scope.

(** ** Python values *)

(** The result object of [urlfetch.fetch]: only the two attributes the
    program reads. *)
Record urlfetch_result := { status_code : Z; content : string }.

(** A [webob.Request]: the path and the decoded form fields (the
    attribute [POST]). *)
Record webob_request := { path : string; form : gmap string string }.

(** The responses the views build.  [Response] is a plain [webob.Response]
    (status line, content type, body); the other two are the
    [webob.exc] redirects, which carry a location. *)
Inductive webob_response : Type :=
  | Response (status content_type body : string)
  | HTTPMovedPermanently (location : string)
  | HTTPSeeOther (location : string).

Inductive pyval : Type :=
  | PNone
  | PBool (b : bool)
  | PInt (z : Z)
  | PStr (s : string)
  | PList (l : list pyval)
  | PDict (d : gmap string pyval)
  | PFetched (r : urlfetch_result)
  | PRequest (r : webob_request)
  | PResponse (r : webob_response).

(** Python's truth test ([if x], [not x]).  Objects without [__len__] or
    [__nonzero__] are true. *)
Definition truthy (v : pyval) : bool :=
  match v with
  | PNone => false
  | PBool b => b
  | PInt z => negb (z =? 0)%Z
  | PStr s => negb (String.eqb s "")
  | PList l => match l with [] => false | _ :: _ => true end
  | PDict d => match map_to_list d with [] => false | _ :: _ => true end
  | PFetched _ | PRequest _ | PResponse _ => true
  end.

(** ** Exceptions *)

(** The program's own exception classes (all subclasses of
    [ReportableError]) and the built-in ones its statements can raise. *)
Inductive exn : Type :=
  | UserError (message : string)
  | ServerError (message : string)
  | RemoteError (message : string)
  | TypeError (message : string)
  | ValueError (message : string)
  | KeyError (key : string)
  | IndexError (message : string)
  | AttributeError (message : string)
  | DownloadError (message : string).

Inductive result (A : Type) : Type :=
  | Return (a : A)
  | Raise (e : exn).
Arguments Return {A} a.
Arguments Raise {A} e.

(** [isinstance(e, UserError)], the test of [except UserError]. *)
Definition is_UserError (e : exn) : bool :=
  match e with UserError _ => true | _ => false end.

(** ** String methods *)

Definition py_startswith (s pre : string) : bool := String.prefix pre s.

(** [s.endswith(suf)]: [suf] is [s] itself or a suffix of its tail. *)
Fixpoint py_endswith (s suf : string) : bool :=
  String.eqb s suf ||
  match s with
  | "" => false
  | String _ s' => py_endswith s' suf
  end.

(** [sub in s]. *)
Fixpoint py_in (sub s : string) : bool :=
  String.prefix sub s ||
  match s with
  | "" => false
  | String _ s' => py_in sub s'
  end.

(** [s[n:]]. *)
Fixpoint py_slice_from (n : nat) (s : string) : string :=
  match n, s with
  | O, _ => s
  | S _, "" => ""
  | S n', String _ s' => py_slice_from n' s'
  end.

(** [s[0:-1]]. *)
Fixpoint py_slice_0_m1 (s : string) : string :=
  match s with
  | "" => ""
  | String c s' => match s' with "" => "" | String _ _ => String c (py_slice_0_m1 s') end
  end.

(** [s[-1]] when there is one. *)
Fixpoint last_char (s : string) : option ascii :=
  match s with
  | "" => None
  | String c s' => match last_char s' with Some d => Some d | None => Some c end
  end.

(** [s.replace(old, new)] for a one-character [old]. *)
Fixpoint py_replace1 (old : ascii) (new : string) (s : string) : string :=
  match s with
  | "" => ""
  | String c s' =>
      if Ascii.eqb c old then new +:+ py_replace1 old new s'
      else String c (py_replace1 old new s')
  end.

Definition in_range (lo hi : nat) (c : ascii) : bool :=
  let n := nat_of_ascii c in Nat.leb lo n && Nat.leb n hi.

Definition is_upper (c : ascii) : bool := in_range 65 90 c.
Definition is_lower (c : ascii) : bool := in_range 97 122 c.
Definition is_digit (c : ascii) : bool := in_range 48 57 c.

Definition lower_char (c : ascii) : ascii :=
  if is_upper c then ascii_of_nat (nat_of_ascii c + 32) else c.

(** [s.lower()] of a byte string. *)
Fixpoint py_lower (s : string) : string :=
  match s with
  | "" => ""
  | String c s' => String (lower_char c) (py_lower s')
  end.

Fixpoint has_upper (s : string) : bool :=
  match s with
  | "" => false
  | String c s' => is_upper c || has_upper s'
  end.

Fixpoint has_lower (s : string) : bool :=
  match s with
  | "" => false
  | String c s' => is_lower c || has_lower s'
  end.

(** [s.islower()]: no cased character is upper case and there is at least
    one cased character. *)
Definition py_islower (s : string) : bool := negb (has_upper s) && has_lower s.

(** [xml.sax.saxutils.escape] with no extra entities: three [replace]
    passes, the ampersand first. *)
Definition escape (data : string) : string :=
  let data := py_replace1 "&" "&amp;" data in
  let data := py_replace1 ">" "&gt;" data in
  let data := py_replace1 "<" "&lt;" data in
  data.

(** ** Regular expressions *)

(** The fragment of [re] that [VALID_CSE_RE] is written in.  [re_match] is
    [pattern.match]: it succeeds when some prefix of the subject is in the
    language of the pattern, which is decided with derivatives. *)
Inductive regex : Type :=
  | RFail
  | REps
  | RClass (p : ascii -> bool)
  | RCat (r1 r2 : regex)
  | RAlt (r1 r2 : regex)
  | RStar (r : regex).

Definition RPlus (r : regex) : regex := RCat r (RStar r).

Fixpoint nullable (r : regex) : bool :=
  match r with
  | RFail => false
  | REps => true
  | RClass _ => false
  | RCat r1 r2 => nullable r1 && nullable r2
  | RAlt r1 r2 => nullable r1 || nullable r2
  | RStar _ => true
  end.

Fixpoint deriv (c : ascii) (r : regex) : regex :=
  match r with
  | RFail => RFail
  | REps => RFail
  | RClass p => if p c then REps else RFail
  | RCat r1 r2 =>
      if nullable r1 then RAlt (RCat (deriv c r1) r2) (deriv c r2)
      else RCat (deriv c r1) r2
  | RAlt r1 r2 => RAlt (deriv c r1) (deriv c r2)
  | RStar r1 => RCat (deriv c r1) (RStar r1)
  end.

Fixpoint re_match (r : regex) (s : string) : bool :=
  nullable r ||
  match s with
  | "" => false
  | String c s' => re_match (deriv c r) s'
  end.

(** [[a-zA-Z0-9]] *)
Definition cls_alnum (c : ascii) : bool := is_lower c || is_upper c || is_digit c.
(** [[\w\-]]: without [re.UNICODE] or [re.LOCALE], [\w] is [[a-zA-Z0-9_]]. *)
Definition cls_word_hyphen (c : ascii) : bool :=
  cls_alnum c || Ascii.eqb c "_" || Ascii.eqb c "-".
(** [\.] *)
Definition cls_dot (c : ascii) : bool := Ascii.eqb c ".".

(** ** Module constants *)

Definition CREF_MIMETYPE := "text/xml".
Definition ANNOTATIONS_MIMETYPE := "text/xml".
Definition OSD_MIMETYPE := "application/opensearchdescription+xml".
Definition CACHE_EXPIRATION : Z := 3600.
(** [^[a-zA-Z0-9][\w\-]+\.[a-zA-Z0-9][\w\-]+]; the leading [^] adds nothing
    under [match], which is anchored at the start of the subject. *)
Definition VALID_CSE_RE : regex :=
  RCat (RClass cls_alnum)
    (RCat (RPlus (RClass cls_word_hyphen))
       (RCat (RClass cls_dot)
          (RCat (RClass cls_alnum) (RPlus (RClass cls_word_hyphen))))).
Definition ANNOTATIONS_URL_TEMPLATE :=
  "http://ego-ego.appspot.com/friendfeed/%s/annotations/list/".

(** ** CSE patterns *)

(** The value of the local [profile_url] after the escaping and the removal
    of a leading scheme (the two rebinding statements of
    [profile_url_to_cse_patterns]). *)
Definition cse_url (profile_url : string) : string :=
  let profile_url := escape profile_url in
  if py_startswith profile_url "http://"
  then py_slice_from (String.length "http://") profile_url
  else profile_url.

Definition profile_url_to_cse_patterns (profile_url : pyval) : result (list string) :=
  if negb (truthy profile_url) then Return []
  else
    match profile_url with
    | PStr profile_url =>
        let profile_url := cse_url profile_url in
        if negb (re_match VALID_CSE_RE profile_url) then Return []
        else if py_endswith profile_url "/"
        then Return [profile_url; profile_url +:+ "*"]
        else if py_in "?" profile_url
        then Return [profile_url]
        else Return [profile_url; profile_url +:+ "/*"]
    | _ => Raise (AttributeError "replace")
    end.

(** ** The world: memcache and the trace of effects *)

(** What the program does to the outside, in the order it does it.
    [EvCall name] records that a function wrapped by [cacheable] was really
    run: counting these is the call counter on it. *)
Inductive event : Type :=
  | EvCacheGet (key : string)
  | EvCacheAdd (key : string)
  | EvFetch (url : string)
  | EvRender (template_path : string)
  | EvCall (name : string).

(** memcache is a finite map from keys to values.  Entries do not expire
    inside the model: it describes calls that follow one another within
    the time to live. *)
Record world := { memcache : gmap string pyval; trace : list event }.

Definition log (e : event) (w : world) : world :=
  {| memcache := memcache w; trace := trace w ++ [e] |}.

(** Computations that may raise and that read and change the world.  The
    world an exception leaves behind is kept. *)
Definition M (A : Type) : Type := world -> result A * world.

Definition ret {A} (a : A) : M A := fun w => (Return a, w).
Definition raise {A} (e : exn) : M A := fun w => (Raise e, w).
Definition bind {A B} (m : M A) (k : A -> M B) : M B :=
  fun w => match m w with
           | (Return a, w') => k a w'
           | (Raise e, w') => (Raise e, w')
           end.
Definition lift {A} (r : result A) : M A := fun w => (r, w).

Notation "x <- m ;; k" := (bind m (fun x => k))
  (at level 100, m at next level, right associativity).

(** [try: body except UserError: handler]. *)
Definition try_except_UserError {A} (body : M A) (handler : M A) : M A :=
  fun w => match body w with
           | (Raise e, w') => if is_UserError e then handler w' else (Raise e, w')
           | ok => ok
           end.

(** [memcache.get(key)]: the value, or [None]. *)
Definition memcache_get (key : string) : M pyval :=
  fun w => (Return (default PNone (memcache w !! key)), log (EvCacheGet key) w).

(** [memcache.add(key, value, time)]: stores only when the key is free and
    says whether it stored. *)
Definition memcache_add (key : string) (value : pyval) (time : pyval) : M bool :=
  fun w => match memcache w !! key with
           | None => (Return true,
                      {| memcache := <[key := value]> (memcache w);
                         trace := trace w ++ [EvCacheAdd key] |})
           | Some _ => (Return false, log (EvCacheAdd key) w)
           end.

Definition is_call (name : string) (e : event) : bool :=
  match e with EvCall n => String.eqb n name | _ => false end.
Definition is_fetch (e : event) : bool :=
  match e with EvFetch _ => true | _ => false end.
Definition is_render (e : event) : bool :=
  match e with EvRender _ => true | _ => false end.
Definition is_cache_op (e : event) : bool :=
  match e with EvCacheGet _ | EvCacheAdd _ => true | _ => false end.

(** How often an effect of a kind occurs in a trace. *)
Definition count (p : event -> bool) (t : list event) : nat :=
  length (List.filter p t).

(** A Python function object: [__module__], [__name__] and what a call with
    the given positional arguments does. *)
Record pyfunc := { fn_module : string; fn_name : string; fn_body : list pyval -> M pyval }.

(** A call of [f] with the positional arguments [args]. *)
Definition apply (f : pyfunc) (args : list pyval) : M pyval := fn_body f args.

(** ** What the program imports *)

(** The services and the facts about its own deployment that the program
    takes from its runtime.  [urlfetch_fetch] is the answer of the network
    to a GET of a URL, [simplejson_loads] the JSON decoder (it raises on a
    malformed document), [template_render] the template engine, [py_repr]
    the [str()] of a value that is not a string. *)
Class Runtime := {
  module_name : string;
  TEMPLATE_DIR : string;
  py_repr : pyval -> string;
  urlfetch_fetch : string -> result urlfetch_result;
  simplejson_loads : string -> result pyval;
  template_render : string -> gmap string pyval -> result string;
}.

(** ** Built-in operations on values *)

(** [v[k]] for a string key [k]. *)
Definition py_getitem (v : pyval) (k : string) : result pyval :=
  match v with
  | PDict d => match d !! k with
               | Some x => Return x
               | None => Raise (KeyError k)
               end
  | PList _ => Raise (TypeError "list indices must be integers")
  | PStr _ => Raise (TypeError "string indices must be integers")
  | _ => Raise (TypeError "object is unsubscriptable")
  end.

Fixpoint chars (s : string) : list pyval :=
  match s with
  | "" => []
  | String c s' => PStr (String c "") :: chars s'
  end.

(** The items a [for] loop over [v] visits.  The keys of a dict come in the
    order the map lists them. *)
Definition py_iter (v : pyval) : result (list pyval) :=
  match v with
  | PList l => Return l
  | PDict d => Return (map (fun kv => PStr (fst kv)) (map_to_list d))
  | PStr s => Return (chars s)
  | _ => Raise (TypeError "object is not iterable")
  end.

(** [request.path] *)
Definition request_path (request : pyval) : result string :=
  match request with
  | PRequest r => Return (path r)
  | _ => Raise (AttributeError "path")
  end.

(** [os.path.join(a, b)] on POSIX paths. *)
Definition os_path_join (a b : string) : string :=
  if py_startswith b "/" then b
  else if String.eqb a "" || py_endswith a "/" then a +:+ b
  else a +:+ "/" +:+ b.

(** The right operand of the string operator [%]: one value or a tuple. *)
Inductive fmt_args : Type :=
  | FmtOne (v : pyval)
  | FmtTuple (vs : list pyval).

(** A lone right operand that supports subscripting is taken as the mapping
    for [%(name)s] conversions, and is then not required to be consumed. *)
Definition is_mapping (v : pyval) : bool :=
  match v with
  | PList _ | PDict _ => true
  | _ => false
  end.

Section Program.
Context `{Runtime}.

(** [str(v)] *)
Definition py_str (v : pyval) : string :=
  match v with
  | PStr s => s
  | _ => py_repr v
  end.

(** One pass over a format string: the text produced and the arguments left
    over.  The conversions are [%s] and [%%], the two this program's format
    strings could contain; any other character after [%] is reported as
    unsupported. *)
Fixpoint format_loop (fmt : string) (args : list pyval) : result (string * list pyval) :=
  match fmt with
  | "" => Return ("", args)
  | String c rest =>
      if Ascii.eqb c "%" then
        match rest with
        | "" => Raise (ValueError "incomplete format")
        | String k rest' =>
            if Ascii.eqb k "s" then
              match args with
              | [] => Raise (TypeError "not enough arguments for format string")
              | a :: args' =>
                  match format_loop rest' args' with
                  | Return (out, unused) => Return (py_str a +:+ out, unused)
                  | Raise e => Raise e
                  end
              end
            else if Ascii.eqb k "%" then
              match format_loop rest' args with
              | Return (out, unused) => Return (String "%" out, unused)
              | Raise e => Raise e
              end
            else Raise (ValueError "unsupported format character")
        end
      else
        match format_loop rest args with
        | Return (out, unused) => Return (String c out, unused)
        | Raise e => Raise e
        end
  end.

(** [fmt % args].  Arguments that no conversion consumed are an error,
    unless the operand was taken as a mapping. *)
Definition py_mod (fmt : string) (args : fmt_args) : result string :=
  let '(vs, as_mapping) :=
    match args with
    | FmtOne v => ([v], is_mapping v)
    | FmtTuple vs => (vs, false)
    end in
  match format_loop fmt vs with
  | Raise e => Raise e
  | Return (out, unused) =>
      match unused with
      | [] => Return out
      | _ :: _ =>
          if as_mapping then Return out
          else Raise (TypeError "not all arguments converted during string formatting")
      end
  end.

(** ** The caching decorator *)

(** The wrapped function is run: one more call of it. *)
Definition invoke (f : pyfunc) (args : list pyval) : M pyval :=
  fun w => fn_body f args (log (EvCall (fn_name f)) w).

(** The local cache key: what the supplied [keygen] returns, or the first
    positional argument when there is none. *)
Definition local_key_of (keygen : option (list pyval -> result pyval))
    (args : list pyval) : result pyval :=
  match keygen with
  | Some keygen => keygen args
  | None => match args with
            | a :: _ => Return a
            | [] => Raise (IndexError "tuple index out of range")
            end
  end.

(** The global key spelled out: module, function name and local key joined
    by colons, which is what the format [%s:%s:%s] in [call] produces
    ([global_key_format] below). *)
Definition global_key (f : pyfunc) (local_key : pyval) : string :=
  fn_module f +:+ ":" +:+ fn_name f +:+ ":" +:+ py_str local_key.

(** The closure [call] of [cacheable].  The [logging] statements are left
    out: they change nothing the program can observe. *)
Definition call (keygen : option (list pyval -> result pyval)) (expiration : pyval)
    (f : pyfunc) (args : list pyval) : M pyval :=
  if negb (truthy expiration) then invoke f args
  else
    local_key <- lift (local_key_of keygen args) ;;
    global_key <- lift (py_mod "%s:%s:%s"
                          (FmtTuple [PStr (fn_module f); PStr (fn_name f); local_key])) ;;
    result <- memcache_get global_key ;;
    if truthy result then ret result
    else
      result <- invoke f args ;;
      _ <- (if truthy result
            then memcache_add global_key result expiration
            else ret true) ;;
      ret result.

(** [decorator.decorator(call)] applied to [f]: a function with the name,
    module and signature of [f] whose calls go through [call]. *)
Definition cacheable (keygen : option (list pyval -> result pyval)) (expiration : pyval)
    (f : pyfunc) : pyfunc :=
  {| fn_module := fn_module f; fn_name := fn_name f;
     fn_body := call keygen expiration f |}.

Definition request_keygen (args : list pyval) : result pyval :=
  match args with
  | [] => Raise (TypeError "request_keygen() takes at least 1 argument (0 given)")
  | request :: _ =>
      if negb (truthy request)
      then Raise (ServerError "First parameter must be a request with a path.")
      else
        match request_path request with
        | Raise e => Raise e
        | Return p =>
            if negb (truthy (PStr p))
            then Raise (ServerError "First parameter must be a request with a path.")
            else Return (PStr p)
        end
  end.

(** A [def] of this module taking one, respectively two, positional
    arguments. *)
Definition def1 (name : string) (body : pyval -> M pyval) : pyfunc :=
  {| fn_module := module_name; fn_name := name;
     fn_body := fun args =>
       match args with
       | [a] => body a
       | _ => raise (TypeError (name +:+ "() takes exactly 1 argument"))
       end |}.

Definition def2 (name : string) (body : pyval -> pyval -> M pyval) : pyfunc :=
  {| fn_module := module_name; fn_name := name;
     fn_body := fun args =>
       match args with
       | [a; b] => body a b
       | _ => raise (TypeError (name +:+ "() takes exactly 2 arguments"))
       end |}.

(** ** Fetching *)

(** [urlfetch.fetch(url)] *)
Definition urlfetch (url : pyval) : M pyval :=
  match url with
  | PStr u =>
      fun w => (match urlfetch_fetch u with
                | Return r => Return (PFetched r)
                | Raise e => Raise e
                end, log (EvFetch u) w)
  | _ => raise (TypeError "url must be a string")
  end.

Definition get_url_def (url : pyval) : M pyval := urlfetch url.

Definition get_url : pyfunc :=
  cacheable None (PInt CACHE_EXPIRATION) (def1 "get_url" get_url_def).

(** The two upstream URLs spelled out: what the format strings in
    [get_friendfeed_profile] and [get_annotations] produce for a nickname
    ([profile_api_url_format] and [annotations_url_format] below). *)
Definition profile_api_url (nickname : pyval) : string :=
  "http://friendfeed.com/api/user/" +:+ py_str nickname
    +:+ "/profile?include=name,nickname,services".

Definition annotations_url (nickname : pyval) : string :=
  "http://ego-ego.appspot.com/friendfeed/" +:+ py_str nickname +:+ "/annotations/list/".

Definition get_friendfeed_profile_def (nickname : pyval) : M pyval :=
  if negb (truthy nickname) then raise (UserError "nickname required")
  else
    friendfeed_profile_url <-
      lift (py_mod "http://friendfeed.com/api/user/%s/profile?include=name,nickname,services"
              (FmtOne nickname)) ;;
    result <- apply get_url [PStr friendfeed_profile_url] ;;
    match result with
    | PFetched result =>
        if (status_code result =? 404)%Z then
          message <- lift (py_mod "User %s not found" (FmtOne nickname)) ;;
          raise (UserError message)
        else if (status_code result =? 401)%Z then
          message <- lift (py_mod "User %s is private" (FmtOne nickname)) ;;
          raise (UserError message)
        else if negb (status_code result =? 200)%Z then
          message <- lift (py_mod "Unknown friendfeed code"
                             (FmtOne (PInt (status_code result)))) ;;
          raise (ServerError message)
        else
          let friendfeed_profile_json := content result in
          if negb (truthy (PStr friendfeed_profile_json)) then
            message <- lift (py_mod "could not load friendfeed user %s" (FmtOne nickname)) ;;
            raise (ServerError message)
          else
            friendfeed_profile <- lift (simplejson_loads friendfeed_profile_json) ;;
            if negb (truthy friendfeed_profile) then
              message <- lift (py_mod "could not parse friendfeed user %s" (FmtOne nickname)) ;;
              raise (ServerError message)
            else ret friendfeed_profile
    | _ => raise (AttributeError "status_code")
    end.

Definition get_friendfeed_profile : pyfunc :=
  cacheable None (PInt CACHE_EXPIRATION)
    (def1 "get_friendfeed_profile" get_friendfeed_profile_def).

(** ** Reading a profile *)

Fixpoint get_cse_names_loop (services : list pyval) (cse_patterns : list string)
    : result (list string) :=
  match services with
  | [] => Return cse_patterns
  | service :: services' =>
      match py_getitem service "profileUrl" with
      | Raise (KeyError _) => get_cse_names_loop services' cse_patterns
      | Raise e => Raise e
      | Return profile_url =>
          match profile_url_to_cse_patterns profile_url with
          | Raise e => Raise e
          | Return patterns => get_cse_names_loop services' (cse_patterns ++ patterns)
          end
      end
  end.

Definition get_cse_names (friendfeed_profile : pyval) : result (list string) :=
  let cse_patterns := [] in
  match py_getitem friendfeed_profile "services" with
  | Raise (KeyError _) => Return cse_patterns
  | Raise e => Raise e
  | Return services =>
      match py_iter services with
      | Raise e => Raise e
      | Return services => get_cse_names_loop services cse_patterns
      end
  end.

Definition get_friendfeed_name (friendfeed_profile : pyval) (friendfeed_name : pyval)
    : result pyval :=
  match py_getitem friendfeed_profile "name" with
  | Return name => Return name
  | Raise (KeyError _) =>
      match py_getitem friendfeed_profile "nickname" with
      | Return name => Return name
      | Raise (KeyError _) => Return friendfeed_name
      | Raise e => Raise e
      end
  | Raise e => Raise e
  end.

Definition get_annotations (nickname : pyval) : M pyval :=
  url <- lift (py_mod ANNOTATIONS_URL_TEMPLATE (FmtOne nickname)) ;;
  result <- apply get_url [PStr url] ;;
  match result with
  | PFetched result =>
      if negb (status_code result =? 200)%Z then
        let annotation := "" in
        ret PNone
      else ret (PStr (content result))
  | _ => raise (AttributeError "status_code")
  end.

(** ** Views *)

(** The constructor of [TemplateResponse]: a [webob.Response] with the
    given status and content type whose body is the rendered template. *)
Definition TemplateResponse (template_name : string)
    (template_data : option (gmap string pyval)) (status content_type : string) : M pyval :=
  let template_data := default ∅ template_data in
  let path := os_path_join TEMPLATE_DIR template_name in
  fun w => (match template_render path template_data with
            | Return body => Return (PResponse (Response status content_type body))
            | Raise e => Raise e
            end, log (EvRender path) w).

(** The defaults of [webob.Response]. *)
Definition STATUS_OK := "200 OK".
Definition DEFAULT_CONTENT_TYPE := "text/html".

Definition UserView_def (request nickname : pyval) : M pyval :=
  rpath <- lift (request_path request) ;;
  if negb (py_islower rpath)
  then ret (PResponse (HTTPMovedPermanently (py_lower rpath)))
  else
    friendfeed_profile <- apply get_friendfeed_profile [nickname] ;;
    name <- lift (get_friendfeed_name friendfeed_profile nickname) ;;
    let template_data := <["nickname" := nickname]> (<["name" := name]> ∅) in
    TemplateResponse "user.tmpl" (Some template_data) STATUS_OK DEFAULT_CONTENT_TYPE.

Definition OsdView_def (request nickname : pyval) : M pyval :=
  rpath <- lift (request_path request) ;;
  if negb (py_islower rpath)
  then ret (PResponse (HTTPMovedPermanently (py_lower rpath)))
  else
    friendfeed_profile <- apply get_friendfeed_profile [nickname] ;;
    name <- lift (get_friendfeed_name friendfeed_profile nickname) ;;
    let template_data := <["nickname" := nickname]> (<["name" := name]> ∅) in
    TemplateResponse "osd.tmpl" (Some template_data) STATUS_OK OSD_MIMETYPE.

Definition CrefView_def (request nickname : pyval) : M pyval :=
  rpath <- lift (request_path request) ;;
  if negb (py_islower rpath)
  then ret (PResponse (HTTPMovedPermanently (py_lower rpath)))
  else
    locals <- try_except_UserError
      (friendfeed_profile <- apply get_friendfeed_profile [nickname] ;;
       name <- lift (get_friendfeed_name friendfeed_profile nickname) ;;
       annotations <- get_annotations nickname ;;
       ret (nickname, name, annotations))
      (ret (PNone, PNone, PStr "")) ;;
    let '(nickname, name, annotations) := locals in
    let template_data :=
      <["nickname" := nickname]> (<["name" := name]> (<["annotations" := annotations]> ∅)) in
    TemplateResponse "cref.tmpl" (Some template_data) STATUS_OK CREF_MIMETYPE.

Definition AnnotationView_def (request nickname : pyval) : M pyval :=
  rpath <- lift (request_path request) ;;
  if negb (py_islower rpath)
  then ret (PResponse (HTTPMovedPermanently (py_lower rpath)))
  else
    annotations <- try_except_UserError (get_annotations nickname) (ret (PStr "")) ;;
    let template_data := <["annotations" := annotations]> ∅ in
    TemplateResponse "annotations.tmpl" (Some template_data) STATUS_OK ANNOTATIONS_MIMETYPE.

Definition AnnotationListView_def (request nickname : pyval) : M pyval :=
  rpath <- lift (request_path request) ;;
  if negb (py_islower rpath)
  then ret (PResponse (HTTPMovedPermanently (py_lower rpath)))
  else
    friendfeed_profile <- apply get_friendfeed_profile [nickname] ;;
    cse_names <- lift (get_cse_names friendfeed_profile) ;;
    let template_data :=
      <["nickname" := nickname]> (<["cse_names" := PList (map PStr cse_names)]> ∅) in
    TemplateResponse "annotation_list.tmpl" (Some template_data)
      STATUS_OK ANNOTATIONS_MIMETYPE.

Definition UserView : pyfunc :=
  cacheable (Some request_keygen) (PInt CACHE_EXPIRATION) (def2 "UserView" UserView_def).
Definition OsdView : pyfunc :=
  cacheable (Some request_keygen) (PInt CACHE_EXPIRATION) (def2 "OsdView" OsdView_def).
Definition CrefView : pyfunc :=
  cacheable (Some request_keygen) (PInt CACHE_EXPIRATION) (def2 "CrefView" CrefView_def).
Definition AnnotationView : pyfunc :=
  cacheable (Some request_keygen) (PInt CACHE_EXPIRATION)
    (def2 "AnnotationView" AnnotationView_def).
Definition AnnotationListView : pyfunc :=
  cacheable (Some request_keygen) (PInt CACHE_EXPIRATION)
    (def2 "AnnotationListView" AnnotationListView_def).

(** The handlers of the five routes below [/friendfeed/{nickname}/]. *)
Definition per_user_views : list (pyval -> pyval -> M pyval) :=
  [UserView_def; OsdView_def; CrefView_def; AnnotationView_def; AnnotationListView_def].

(** The same handlers as the routes see them, behind the cache. *)
Definition per_user_handlers : list pyfunc :=
  [UserView; OsdView; CrefView; AnnotationView; AnnotationListView].

(** ** The dispatcher *)

Inductive http_method : Type := GET | POST.

(** What a WSGI application hands back: the status line and headers given
    to [start_response], and the body chunks. *)
Record wsgi_reply := {
  reply_status : string;
  reply_headers : list (string * string);
  reply_body : list string
}.

(** The callables the dispatcher hands to the router: an instance of the
    wrapper class [_make_request], which holds a view and an optional error
    handler (its constructor; the instance is only stored here, never
    called), or a plain WSGI function of the environment. *)
Inductive wsgi_app : Type :=
  | _make_request (f : pyfunc) (error_handler : option wsgi_app)
  | wsgi_function (app : gmap string string -> result wsgi_reply).

(** Modelled from the spec: [wsgidispatcher.Dispatcher], the router this
    file imports, is not part of it.  Its state is an ordered collection of
    (path pattern, HTTP method, handler) bindings and one not-found
    binding; [add] appends a binding. *)
Record router := {
  bindings : list (string * http_method * wsgi_app);
  handle404 : option wsgi_app
}.

Definition router_add (pattern : string) (method : http_method) (app : wsgi_app)
    (r : router) : router :=
  {| bindings := bindings r ++ [(pattern, method, app)]; handle404 := handle404 r |}.

Record Dispatcher := { _urls : router; _error_handler : option wsgi_app }.

(** [Dispatcher.__init__] *)
Definition new_Dispatcher : Dispatcher :=
  {| _urls := {| bindings := []; handle404 := None |}; _error_handler := None |}.

Definition _redirect_with_slash (environ : gmap string string) : result wsgi_reply :=
  match environ !! "SCRIPT_NAME" with
  | None => Raise (KeyError "SCRIPT_NAME")
  | Some script_name =>
      let new_url := script_name +:+ "/" in
      match py_mod "Page moved to %s" (FmtOne (PStr new_url)) with
      | Raise e => Raise e
      | Return page =>
          Return {| reply_status := "301 Moved Permanently";
                    reply_headers := [("content-type", "text/html"); ("Location", new_url)];
                    reply_body := [page] |}
      end
  end.

Definition add_get_handler (self : Dispatcher) (path : string) (f : pyfunc)
    (error_handler : option wsgi_app) : Dispatcher :=
  let error_handler :=
    match error_handler with
    | None => _error_handler self
    | Some _ => error_handler
    end in
  let urls := router_add path GET (_make_request f error_handler) (_urls self) in
  let urls :=
    if py_endswith path "/"
    then router_add (py_slice_0_m1 path) GET (wsgi_function _redirect_with_slash) urls
    else urls in
  {| _urls := urls; _error_handler := _error_handler self |}.

Definition add_post_handler (self : Dispatcher) (path : string) (f : pyfunc)
    (error_handler : option wsgi_app) : Dispatcher :=
  let error_handler :=
    match error_handler with
    | None => _error_handler self
    | Some _ => error_handler
    end in
  {| _urls := router_add path POST (_make_request f error_handler) (_urls self);
     _error_handler := _error_handler self |}.

Definition add_not_found_handler (self : Dispatcher) (f : pyfunc) : Dispatcher :=
  {| _urls := {| bindings := bindings (_urls self);
                 handle404 := Some (_make_request f None) |};
     _error_handler := _error_handler self |}.

Definition add_error_handler (self : Dispatcher) (f : pyfunc) : Dispatcher :=
  {| _urls := _urls self; _error_handler := Some (_make_request f None) |}.

End Program.

(** ** The rest of the module *)

(** The loop of [get_friend_nicknames].  The bare [except] skips an entry
    whatever reading its nickname raised; [lower] exists on strings only. *)
Fixpoint get_friend_nicknames_loop (subscriptions : list pyval)
    (friend_nicknames : list string) : result (list string) :=
  match subscriptions with
  | [] => Return friend_nicknames
  | subscription :: subscriptions' =>
      match py_getitem subscription "nickname" with
      | Raise _ => get_friend_nicknames_loop subscriptions' friend_nicknames
      | Return friend_nickname =>
          if negb (truthy friend_nickname)
          then get_friend_nicknames_loop subscriptions' friend_nicknames
          else
            match friend_nickname with
            | PStr s =>
                get_friend_nicknames_loop subscriptions' (friend_nicknames ++ [py_lower s])
            | _ => Raise (AttributeError "lower")
            end
      end
  end.

Definition get_friend_nicknames (friendfeed_profile : pyval) : result (list string) :=
  let friend_nicknames := [] in
  match py_getitem friendfeed_profile "subscriptions" with
  | Raise e => Raise e
  | Return subscriptions =>
      match py_iter subscriptions with
      | Raise e => Raise e
      | Return subscriptions => get_friend_nicknames_loop subscriptions friend_nicknames
      end
  end.

Section Pages.
Context `{Runtime}.

(** [memcache.get_stats()], whose answer the model of memcache does not
    determine. *)
Variable memcache_get_stats : M pyval.

(** Two pieces of [webob] that the WSGI wrapper relies on: the request
    built from an environment, and a response object called as a WSGI
    application. *)
Variable webob_Request : gmap string string -> webob_request.
Variable webob_respond : webob_response -> gmap string string -> result wsgi_reply.

Definition NotFoundView_def (request : pyval) : M pyval :=
  TemplateResponse "404.tmpl" None "404 Not Found" DEFAULT_CONTENT_TYPE.

Definition NotFoundView : pyfunc := def1 "NotFoundView" NotFoundView_def.

(** [ExceptionView(request, *args, **kwargs)]: one argument or more. *)
Definition ExceptionView : pyfunc :=
  {| fn_module := module_name; fn_name := "ExceptionView";
     fn_body := fun args =>
       match args with
       | [] => raise (TypeError "ExceptionView() takes at least 1 argument (0 given)")
       | request :: _ =>
           TemplateResponse "500.tmpl" None "500 Server Error" DEFAULT_CONTENT_TYPE
       end |}.

Definition HomeView_def (request : pyval) : M pyval :=
  TemplateResponse "home.tmpl" None STATUS_OK DEFAULT_CONTENT_TYPE.

Definition HomeView : pyfunc :=
  cacheable (Some request_keygen) (PInt CACHE_EXPIRATION) (def1 "HomeView" HomeView_def).

Definition FaqView_def (request : pyval) : M pyval :=
  TemplateResponse "faq.tmpl" None STATUS_OK DEFAULT_CONTENT_TYPE.

Definition FaqView : pyfunc :=
  cacheable (Some request_keygen) (PInt CACHE_EXPIRATION) (def1 "FaqView" FaqView_def).

Definition UserRedirectView_def (request : pyval) : M pyval :=
  match request with
  | PRequest r =>
      let nickname :=
        match form r !! "nickname" with
        | Some n => PStr n
        | None => PNone
        end in
      if negb (truthy nickname) then raise (UserError "nickname required")
      else
        location <- lift (py_mod "/friendfeed/%s/" (FmtOne nickname)) ;;
        ret (PResponse (HTTPSeeOther location))
  | _ => raise (AttributeError "POST")
  end.

Definition UserRedirectView : pyfunc := def1 "UserRedirectView" UserRedirectView_def.

Definition StatsView_def (request : pyval) : M pyval :=
  stats <- memcache_get_stats ;;
  let template_data := <["stats" := stats]> ∅ in
  TemplateResponse "stats.tmpl" (Some template_data) STATUS_OK DEFAULT_CONTENT_TYPE.

Definition StatsView : pyfunc := def1 "StatsView" StatsView_def.

(** [_make_request.__call__] and the call of a plain WSGI function.  The
    keyword arguments are those the router left under
    [wsgiorg.routing_args] ([None] when the key is missing); every route of
    this program binds at most one name, so they are handed to the view in
    order after the request.  Whatever the view raises goes to the error
    handler when there is one; the response object is called outside the
    [try]. *)
Fixpoint wsgi_call (app : wsgi_app) (environ : gmap string string)
    (routing_kwargs : option (list (string * pyval))) : M wsgi_reply :=
  match app with
  | wsgi_function g => lift (g environ)
  | _make_request f error_handler =>
      let request := PRequest (webob_Request environ) in
      let kwargs := default [] routing_kwargs in
      fun w =>
        match apply f (request :: map snd kwargs) w with
        | (Raise e, w') =>
            match error_handler with
            | Some handler => wsgi_call handler environ routing_kwargs w'
            | None => (Raise e, w')
            end
        | (Return response, w') =>
            (match response with
             | PResponse r => webob_respond r environ
             | _ => Raise (TypeError "object is not callable")
             end, w')
        end
  end.

(** [init()].  [server_software] is [os.environ] at [SERVER_SOFTWARE], when
    set. *)
Definition init (server_software : option string) : result Dispatcher :=
  match server_software with
  | None => Raise (KeyError "SERVER_SOFTWARE")
  | Some software =>
      let dispatcher := new_Dispatcher in
      let dispatcher :=
        if negb (py_startswith software "Dev")
        then add_error_handler dispatcher ExceptionView
        else dispatcher in
      let dispatcher := add_get_handler dispatcher "/" HomeView None in
      let dispatcher := add_get_handler dispatcher "/faq/" FaqView None in
      let dispatcher := add_post_handler dispatcher "/user/" UserRedirectView None in
      let dispatcher :=
        add_get_handler dispatcher "/friendfeed/{nickname:word}/" UserView None in
      let dispatcher :=
        add_get_handler dispatcher "/friendfeed/{nickname:word}/osd/" OsdView None in
      let dispatcher :=
        add_get_handler dispatcher "/friendfeed/{nickname:word}/cref/" CrefView None in
      let dispatcher :=
        add_get_handler dispatcher "/friendfeed/{nickname:word}/annotations/"
          AnnotationView None in
      let dispatcher :=
        add_get_handler dispatcher "/friendfeed/{nickname:word}/annotations/list/"
          AnnotationListView None in
      let dispatcher := add_get_handler dispatcher "/statsstatsstats/" StatsView None in
      let dispatcher := add_not_found_handler dispatcher NotFoundView in
      Return dispatcher
  end.

End Pages.

(** ** A sample deployment

    One runtime and one starting world on which the definitions can be
    run: the upstream knows the users jdoe and 123, reports ghost as
    missing and shy as private, and answers 500 for broken. *)

Definition sample_profile : gmap string pyval :=
  <["name" := PStr "John Doe"]>
    (<["nickname" := PStr "jdoe"]>
       (<["services" :=
            PList [PDict (<["profileUrl" := PStr "http://twitter.com/jdoe"]> ∅)]]> ∅)).

Definition sample_api (user : string) : string :=
  "http://friendfeed.com/api/user/" +:+ user +:+ "/profile?include=name,nickname,services".

Definition sample_fetch (url : string) : result urlfetch_result :=
  if String.eqb url (sample_api "jdoe") || String.eqb url (sample_api "123")
  then Return {| status_code := 200; content := "PROFILE" |}
  else if String.eqb url (sample_api "ghost")
  then Return {| status_code := 404; content := "" |}
  else if String.eqb url (sample_api "shy")
  then Return {| status_code := 401; content := "" |}
  else if String.eqb url (sample_api "broken")
  then Return {| status_code := 500; content := "" |}
  else if String.eqb url (sample_api "garbled")
  then Return {| status_code := 200; content := "<html>" |}
  else if String.eqb url "http://ego-ego.appspot.com/friendfeed/jdoe/annotations/list/"
  then Return {| status_code := 200; content := "<Annotations/>" |}
  else Return {| status_code := 503; content := "unavailable" |}.

Definition sample_loads (document : string) : result pyval :=
  if String.eqb document "PROFILE" then Return (PDict sample_profile)
  else Raise (ValueError "No JSON object could be decoded").

Definition sample_repr (v : pyval) : string :=
  match v with
  | PNone => "None"
  | PBool true => "True"
  | PBool false => "False"
  | _ => "<object>"
  end.

Definition sample_runtime : Runtime :=
  {| module_name := "__main__";
     TEMPLATE_DIR := "templates";
     py_repr := sample_repr;
     urlfetch_fetch := sample_fetch;
     simplejson_loads := sample_loads;
     template_render := fun path _ => Return ("rendered " +:+ path) |}.

Definition empty_world : world := {| memcache := ∅; trace := [] |}.

Definition sample_request (p : string) : pyval := PRequest {| path := p; form := ∅ |}.

(** A runtime with the network down, and stand-ins for the pieces of
    [webob] and memcache that the pages take as given. *)
Definition offline_runtime : Runtime :=
  {| module_name := "__main__";
     TEMPLATE_DIR := "templates";
     py_repr := sample_repr;
     urlfetch_fetch := fun _ => Raise (DownloadError "ApplicationError: 2");
     simplejson_loads := sample_loads;
     template_render := fun path _ => Return ("rendered " +:+ path) |}.

Definition sample_stats : M pyval := ret (PDict (<["hits" := PInt 0]> ∅)).

Definition sample_webob_Request (environ : gmap string string) : webob_request :=
  {| path := default "" (environ !! "SCRIPT_NAME") +:+ default "" (environ !! "PATH_INFO");
     form := ∅ |}.

Definition sample_respond (r : webob_response) (environ : gmap string string)
    : result wsgi_reply :=
  Return
    match r with
    | Response status content_type body =>
        {| reply_status := status;
           reply_headers := [("Content-Type", content_type)];
           reply_body := [body] |}
    | HTTPMovedPermanently location =>
        {| reply_status := "301 Moved Permanently";
           reply_headers := [("Location", location)];
           reply_body := [] |}
    | HTTPSeeOther location =>
        {| reply_status := "303 See Other";
           reply_headers := [("Location", location)];
           reply_body := [] |}
    end.

(** ** Notions used to state and prove the properties *)

(** A regular expression that no string matches, seen from its shape. *)
Fixpoint dead (r : regex) : bool :=
  match r with
  | RFail => true
  | RCat r1 _ => dead r1
  | RAlt r1 r2 => dead r1 && dead r2
  | _ => false
  end.

(** The derivative by a whole string, and whether [re_match] finds no
    match while it reads that string. *)
Fixpoint derivs (p : string) (r : regex) : regex :=
  match p with
  | "" => r
  | String c p' => derivs p' (deriv c r)
  end.

Fixpoint no_match_within (p : string) (r : regex) : bool :=
  negb (nullable r) &&
  match p with
  | "" => true
  | String c p' => no_match_within p' (deriv c r)
  end.

(** What a well-formed CSE pattern is free of. *)
Definition markup_free (p : string) : Prop :=
  py_in "<" p = false /\ py_in ">" p = false.

(** A computation that never answers with a permanent redirect. *)
Definition never_redirects (m : M pyval) : Prop :=
  forall w location, fst (m w) <> Return (PResponse (HTTPMovedPermanently location)).

(** A sequence of registration calls on a dispatcher. *)
Inductive registration : Type :=
  | RegGet (path : string) (f : pyfunc) (error_handler : option wsgi_app)
  | RegPost (path : string) (f : pyfunc) (error_handler : option wsgi_app)
  | RegNotFound (f : pyfunc)
  | RegError (f : pyfunc).

Definition register `{Runtime} (self : Dispatcher) (c : registration) : Dispatcher :=
  match c with
  | RegGet path f error_handler => add_get_handler self path f error_handler
  | RegPost path f error_handler => add_post_handler self path f error_handler
  | RegNotFound f => add_not_found_handler self f
  | RegError f => add_error_handler self f
  end.

Definition register_all `{Runtime} (self : Dispatcher) (cs : list registration) : Dispatcher :=
  fold_left register cs self.

(** Every GET binding of a view under a pattern that ends with a slash
    has, in the same list, the redirect under the pattern without it. *)
Definition slash_twinned `{Runtime} (bs : list (string * http_method * wsgi_app)) : Prop :=
  forall pattern f error_handler,
    In (pattern, GET, _make_request f error_handler) bs ->
    py_endswith pattern "/" = true ->
    In (py_slice_0_m1 pattern, GET, wsgi_function _redirect_with_slash) bs.

(** * Properties *)

(** ** Sanity checks of the embedding *)

Example re_ok1 : re_match VALID_CSE_RE "twitter.com/jdoe" = true.
Proof. reflexivity. Qed.
Example re_ko1 : re_match VALID_CSE_RE "a.bc" = false.
Proof. reflexivity. Qed.
Example re_ko2 : re_match VALID_CSE_RE "" = false.
Proof. reflexivity. Qed.
Example cse1 : profile_url_to_cse_patterns (PStr "http://twitter.com/jdoe")
  = Return ["twitter.com/jdoe"; "twitter.com/jdoe/*"].
Proof. reflexivity. Qed.
Example cse2 : profile_url_to_cse_patterns (PStr "http://www.flickr.com/photos/jdoe/")
  = Return ["www.flickr.com/photos/jdoe/"; "www.flickr.com/photos/jdoe/*"].
Proof. reflexivity. Qed.
Example cse3 : profile_url_to_cse_patterns (PStr "http://www.youtube.com/profile?user=j&x=1")
  = Return ["www.youtube.com/profile?user=j&amp;x=1"].
Proof. reflexivity. Qed.
Example cse4 : profile_url_to_cse_patterns (PStr "https://x.example.com/") = Return [].
Proof. reflexivity. Qed.
Example low1 : py_islower "/friendfeed/123/" = true /\ py_islower "/123/" = false
  /\ py_lower "/friendfeed/JohnDoe/" = "/friendfeed/johndoe/".
Proof. repeat split; reflexivity. Qed.

(** ** Strings *)

Lemma last_char_None s : last_char s = None -> s = "".
Proof.
  destruct s as [|c s']; [reflexivity|]. simpl.
  destruct (last_char s'); discriminate.
Qed.

Lemma last_char_app x y :
  last_char (x +:+ y) = match last_char y with Some c => Some c | None => last_char x end.
Proof.
  induction x as [|a x IH].
  - change ("" +:+ y) with y. destruct (last_char y); reflexivity.
  - change (String a x +:+ y) with (String a (x +:+ y)).
    cbn [last_char]. rewrite IH. destruct (last_char y); reflexivity.
Qed.

Lemma py_endswith_last c s :
  py_endswith s (String c "") =
  match last_char s with Some d => Ascii.eqb d c | None => false end.
Proof.
  induction s as [|a s' IH]; [reflexivity|].
  cbn [py_endswith last_char]. rewrite IH.
  destruct s' as [|b s'']; simpl.
  - destruct (Ascii.eqb a c); reflexivity.
  - destruct (Ascii.eqb a c); destruct (last_char s''); reflexivity.
Qed.

Lemma last_char_replace1 old new k s :
  last_char new = Some k ->
  last_char (py_replace1 old new s) =
  match last_char s with
  | None => None
  | Some c => if Ascii.eqb c old then Some k else Some c
  end.
Proof.
  intros Hnew. induction s as [|a s' IH]; [reflexivity|].
  simpl. destruct (Ascii.eqb a old) eqn:Ea.
  - rewrite last_char_app, IH, Hnew.
    destruct (last_char s') as [c|]; [|rewrite Ea; reflexivity].
    destruct (Ascii.eqb c old); reflexivity.
  - simpl. rewrite IH.
    destruct (last_char s') as [c|]; [|rewrite Ea; reflexivity].
    destruct (Ascii.eqb c old); reflexivity.
Qed.

Lemma escape_endswith_slash s : py_endswith (escape s) "/" = py_endswith s "/".
Proof.
  rewrite !py_endswith_last. unfold escape.
  rewrite (last_char_replace1 _ _ ";"%char) by reflexivity.
  rewrite (last_char_replace1 _ _ ";"%char) by reflexivity.
  rewrite (last_char_replace1 _ _ ";"%char) by reflexivity.
  destruct (last_char s) as [c|]; [|reflexivity].
  destruct (Ascii.eqb c "&") eqn:E1.
  - apply Ascii.eqb_eq in E1. subst c. reflexivity.
  - destruct (Ascii.eqb c ">") eqn:E2.
    + apply Ascii.eqb_eq in E2. subst c. reflexivity.
    + destruct (Ascii.eqb c "<") eqn:E3; [|reflexivity].
      apply Ascii.eqb_eq in E3. subst c. reflexivity.
Qed.

Lemma startswith_split p t :
  py_startswith t p = true -> t = p +:+ py_slice_from (String.length p) t.
Proof.
  unfold py_startswith. revert t.
  induction p as [|a p IH]; intros t Hp; [reflexivity|].
  destruct t as [|b t]; [discriminate|]. simpl in Hp.
  destruct (ascii_dec a b) as [->|]; [|discriminate].
  cbn [String.length py_slice_from].
  change (String b t = String b (p +:+ py_slice_from (String.length p) t)).
  f_equal. apply IH, Hp.
Qed.

Lemma py_in_char_cons c b s :
  py_in (String c "") (String b s) = Ascii.eqb b c || py_in (String c "") s.
Proof.
  cbn [py_in String.prefix].
  destruct (ascii_dec c b) as [->|Hne].
  - rewrite Ascii.eqb_refl. destruct s; reflexivity.
  - destruct (Ascii.eqb b c) eqn:E; [|reflexivity].
    apply Ascii.eqb_eq in E. congruence.
Qed.

Lemma py_in_char_app c x y :
  py_in (String c "") (x +:+ y) = py_in (String c "") x || py_in (String c "") y.
Proof.
  induction x as [|a x IH].
  - reflexivity.
  - change (String a x +:+ y) with (String a (x +:+ y)).
    rewrite !py_in_char_cons, IH, orb_assoc. reflexivity.
Qed.

Lemma py_in_char_replace1 c old new s :
  old <> c -> py_in (String c "") new = false ->
  py_in (String c "") (py_replace1 old new s) = py_in (String c "") s.
Proof.
  intros Hne Hnew. induction s as [|a s' IH]; [reflexivity|].
  cbn [py_replace1]. destruct (Ascii.eqb a old) eqn:Ea.
  - rewrite py_in_char_app, Hnew, IH, py_in_char_cons.
    apply Ascii.eqb_eq in Ea. subst a.
    destruct (Ascii.eqb old c) eqn:E; [apply Ascii.eqb_eq in E; congruence|reflexivity].
  - rewrite !py_in_char_cons, IH. reflexivity.
Qed.

Lemma escape_in_question s : py_in "?" (escape s) = py_in "?" s.
Proof.
  unfold escape.
  rewrite !py_in_char_replace1 by (reflexivity || discriminate). reflexivity.
Qed.

(** ** CSE patterns *)

Lemma cse_url_endswith_slash url :
  cse_url url <> "" -> py_endswith (cse_url url) "/" = py_endswith url "/".
Proof.
  unfold cse_url. cbv zeta.
  destruct (py_startswith (escape url) "http://") eqn:E.
  - intros Hne. rewrite <- (escape_endswith_slash url).
    set (rest := py_slice_from (String.length "http://") (escape url)) in *.
    rewrite (startswith_split _ _ E). fold rest.
    rewrite !py_endswith_last, last_char_app.
    destruct (last_char rest) eqn:El; [reflexivity|].
    apply last_char_None in El. contradiction.
  - intros _. apply escape_endswith_slash.
Qed.

Lemma cse_url_in_question url : py_in "?" (cse_url url) = py_in "?" url.
Proof.
  unfold cse_url. cbv zeta.
  destruct (py_startswith (escape url) "http://") eqn:E.
  - rewrite <- (escape_in_question url).
    rewrite (startswith_split _ _ E) at 2.
    rewrite py_in_char_app. reflexivity.
  - apply escape_in_question.
Qed.

Lemma truthy_PStr s : truthy (PStr s) = true <-> s <> "".
Proof.
  simpl. destruct (String.eqb_spec s ""); simpl; split; congruence.
Qed.

(** C1. [profile_url_to_cse_patterns] returns the empty list for an empty
    URL and for one whose escaped, scheme-stripped form [u] fails
    [VALID_CSE_RE].  For a non-empty URL whose [u] passes, it returns
    [[u; u*]] when [u] ends with a slash, [[u]] when it does not but
    contains a question mark, and [[u; u/*]] otherwise; and [u] ends with a
    slash, respectively contains a question mark, exactly when the URL as
    given does. *)
Theorem profile_url_to_cse_patterns_spec (url : string) :
  let u := cse_url url in
  (url = "" -> profile_url_to_cse_patterns (PStr url) = Return []) /\
  (re_match VALID_CSE_RE u = false ->
   profile_url_to_cse_patterns (PStr url) = Return []) /\
  (url <> "" -> re_match VALID_CSE_RE u = true ->
   (py_endswith u "/" = true ->
    profile_url_to_cse_patterns (PStr url) = Return [u; u +:+ "*"]) /\
   (py_endswith u "/" = false -> py_in "?" u = true ->
    profile_url_to_cse_patterns (PStr url) = Return [u]) /\
   (py_endswith u "/" = false -> py_in "?" u = false ->
    profile_url_to_cse_patterns (PStr url) = Return [u; u +:+ "/*"]) /\
   py_endswith u "/" = py_endswith url "/" /\
   py_in "?" u = py_in "?" url).
Proof.
  intros u. split; [|split].
  - intros ->. reflexivity.
  - intros Hre. unfold profile_url_to_cse_patterns.
    destruct (truthy (PStr url)); [|reflexivity].
    cbn [negb]. fold u. rewrite Hre. reflexivity.
  - intros Hne Hre.
    assert (Ht : truthy (PStr url) = true) by (apply truthy_PStr, Hne).
    assert (Hu : u <> "").
    { intros E. rewrite E in Hre. discriminate Hre. }
    unfold profile_url_to_cse_patterns. rewrite Ht. cbn [negb]. fold u.
    rewrite Hre. cbn [negb].
    repeat split.
    + intros ->. reflexivity.
    + intros -> ->. reflexivity.
    + intros -> ->. reflexivity.
    + apply cse_url_endswith_slash, Hu.
    + apply cse_url_in_question.
Qed.

Lemma profile_url_to_cse_patterns_spec_witness :
  profile_url_to_cse_patterns (PStr "http://www.flickr.com/photos/j&d/")
    = Return ["www.flickr.com/photos/j&amp;d/"; "www.flickr.com/photos/j&amp;d/*"] /\
  profile_url_to_cse_patterns (PStr "http://www.youtube.com/profile?user=jdoe")
    = Return ["www.youtube.com/profile?user=jdoe"] /\
  profile_url_to_cse_patterns (PStr "http://twitter.com/jdoe")
    = Return ["twitter.com/jdoe"; "twitter.com/jdoe/*"] /\
  profile_url_to_cse_patterns (PStr "mailto:jdoe") = Return [].
Proof.
  split; [|split; [|split]].
  - destruct (profile_url_to_cse_patterns_spec "http://www.flickr.com/photos/j&d/")
      as (_ & _ & Hok).
    destruct Hok as (H1 & _); [discriminate | reflexivity |].
    apply H1. reflexivity.
  - destruct (profile_url_to_cse_patterns_spec "http://www.youtube.com/profile?user=jdoe")
      as (_ & _ & Hok).
    destruct Hok as (_ & H2 & _); [discriminate | reflexivity |].
    apply H2; reflexivity.
  - destruct (profile_url_to_cse_patterns_spec "http://twitter.com/jdoe")
      as (_ & _ & Hok).
    destruct Hok as (_ & _ & H3 & _); [discriminate | reflexivity |].
    apply H3; reflexivity.
  - destruct (profile_url_to_cse_patterns_spec "mailto:jdoe") as (_ & Hbad & _).
    apply Hbad. reflexivity.
Defined.

(** ** The caching decorator *)

Lemma append_nil_r s : s +:+ "" = s.
Proof.
  induction s as [|c s IH]; [reflexivity|].
  change (String c s +:+ "") with (String c (s +:+ "")). rewrite IH. reflexivity.
Qed.

Lemma count_app p (t1 t2 : list event) : count p (t1 ++ t2) = count p t1 + count p t2.
Proof. unfold count. rewrite List.filter_app, length_app. reflexivity. Qed.

Section CacheProperties.
Context `{Runtime}.

Lemma global_key_format f local_key :
  py_mod "%s:%s:%s" (FmtTuple [PStr (fn_module f); PStr (fn_name f); local_key])
  = Return (global_key f local_key).
Proof.
  unfold py_mod, global_key. cbn. rewrite append_nil_r. reflexivity.
Qed.

(** What a call through the decorator does once caching is on and the
    local key is known. *)
Lemma call_cached keygen expiration f args local_key w :
  truthy expiration = true ->
  local_key_of keygen args = Return local_key ->
  let key := global_key f local_key in
  let cached := default PNone (memcache w !! key) in
  call keygen expiration f args w =
  if truthy cached then (Return cached, log (EvCacheGet key) w)
  else
    match fn_body f args (log (EvCall (fn_name f)) (log (EvCacheGet key) w)) with
    | (Return v, w') =>
        if truthy v
        then (Return v, snd (memcache_add key v expiration w'))
        else (Return v, w')
    | (Raise e, w') => (Raise e, w')
    end.
Proof.
  intros Hexp Hkey key cached.
  unfold call. rewrite Hexp. cbn [negb].
  unfold bind at 1. unfold lift at 1. rewrite Hkey.
  unfold bind at 1. unfold lift at 1. rewrite global_key_format. fold key.
  unfold bind at 1. unfold memcache_get at 1. fold cached.
  destruct (truthy cached); [reflexivity|].
  unfold bind at 1. unfold invoke at 1.
  destruct (fn_body f args _) as [[v|e] w']; [|reflexivity].
  unfold bind, ret. destruct (truthy v); [|reflexivity].
  unfold memcache_add. destruct (memcache w' !! key); reflexivity.
Qed.

(** C6. With a false expiration (zero, or [None] for none), a call of the
    decorated function is exactly one run of the wrapped function on the
    same arguments in the same world: same result, same final world, and
    nothing but that run in between.  So when the wrapped function itself
    leaves memcache alone, the decorated call changes nothing in memcache
    and adds no memcache read or write to the trace. *)
Theorem cacheable_without_expiration keygen expiration f args w :
  truthy expiration = false ->
  let decorated := cacheable keygen expiration f in
  apply decorated args w = fn_body f args (log (EvCall (fn_name f)) w) /\
  ((forall a w0, memcache (snd (fn_body f a w0)) = memcache w0 /\
                 count is_cache_op (trace (snd (fn_body f a w0)))
                 = count is_cache_op (trace w0)) ->
   memcache (snd (apply decorated args w)) = memcache w /\
   count is_cache_op (trace (snd (apply decorated args w)))
   = count is_cache_op (trace w)).
Proof.
  intros Hexp decorated.
  assert (Hrun : apply decorated args w
                 = fn_body f args (log (EvCall (fn_name f)) w)).
  { unfold apply, decorated, cacheable. cbn [fn_body].
    unfold call. rewrite Hexp. reflexivity. }
  split; [exact Hrun|].
  intros Hquiet. rewrite Hrun.
  destruct (Hquiet args (log (EvCall (fn_name f)) w)) as [Hmem Hops].
  rewrite Hmem, Hops. split; [reflexivity|].
  cbn [log trace]. rewrite count_app. cbn. lia.
Qed.

(** C3. With a time to live above zero: when the first call of the
    decorated function misses the cache, the wrapped function returns a
    true value [v] and the key is free for [memcache.add] to store it, then
    that call returns [v] with [v] stored under the global key, and the
    same call made right after returns [v] again from the cache; the only
    effect of the second call is one memcache read, so the count of runs of
    the wrapped function does not move. *)
Theorem cacheable_second_call_is_a_hit keygen (ttl : Z) f args local_key v w0 wf :
  (0 < ttl)%Z ->
  local_key_of keygen args = Return local_key ->
  let key := global_key f local_key in
  let cached_f := cacheable keygen (PInt ttl) f in
  truthy (default PNone (memcache w0 !! key)) = false ->
  fn_body f args (log (EvCall (fn_name f)) (log (EvCacheGet key) w0)) = (Return v, wf) ->
  truthy v = true ->
  memcache wf !! key = None ->
  exists w1,
    apply cached_f args w0 = (Return v, w1) /\
    memcache w1 !! key = Some v /\
    apply cached_f args w1 = (Return v, log (EvCacheGet key) w1) /\
    count (is_call (fn_name f)) (trace (log (EvCacheGet key) w1))
      = count (is_call (fn_name f)) (trace w1).
Proof.
  intros Httl Hkey key cached_f Hmiss Hrun Hv Hfree.
  assert (Hexp : truthy (PInt ttl) = true).
  { simpl. destruct (Z.eqb_spec ttl 0); [lia|reflexivity]. }
  exists {| memcache := <[key := v]> (memcache wf);
            trace := trace wf ++ [EvCacheAdd key] |}.
  assert (Hfirst : apply cached_f args w0
                   = (Return v, {| memcache := <[key := v]> (memcache wf);
                                   trace := trace wf ++ [EvCacheAdd key] |})).
  { unfold apply, cached_f, cacheable. cbn [fn_body].
    rewrite (call_cached _ _ _ _ _ _ Hexp Hkey). cbv zeta. fold key.
    rewrite Hmiss, Hrun, Hv. unfold memcache_add. rewrite Hfree. reflexivity. }
  split; [exact Hfirst|].
  split; [cbn [memcache]; apply lookup_insert_eq|].
  split.
  - unfold apply, cached_f, cacheable. cbn [fn_body].
    rewrite (call_cached _ _ _ _ _ _ Hexp Hkey). cbv zeta. fold key.
    cbn [memcache]. rewrite lookup_insert_eq. cbn [from_option id]. rewrite Hv. reflexivity.
  - cbn [log trace]. rewrite count_app. cbn. lia.
Qed.

End CacheProperties.
Lemma cacheable_second_call_is_a_hit_witness :
  let f := @def1 sample_runtime "get_url" (@get_url_def sample_runtime) in
  let args := [PStr (sample_api "jdoe")] in
  let key := @global_key sample_runtime f (PStr (sample_api "jdoe")) in
  let cached_f := @cacheable sample_runtime None (PInt 3600) f in
  let v := PFetched {| status_code := 200; content := "PROFILE" |} in
  exists w1,
    apply cached_f args empty_world = (Return v, w1) /\
    memcache w1 !! key = Some v /\
    apply cached_f args w1 = (Return v, log (EvCacheGet key) w1) /\
    count (is_call (fn_name f)) (trace (log (EvCacheGet key) w1))
      = count (is_call (fn_name f)) (trace w1).
Proof.
  intros f args key cached_f v.
  refine (@cacheable_second_call_is_a_hit sample_runtime None 3600 f args
            (PStr (sample_api "jdoe")) v empty_world
            {| memcache := ∅; trace := [EvCacheGet key; EvCall "get_url"; EvFetch (sample_api "jdoe")] |}
            _ _ _ _ _ _).
  - lia.
  - reflexivity.
  - reflexivity.
  - reflexivity.
  - reflexivity.
  - reflexivity.
Defined.

Lemma cacheable_without_expiration_witness :
  let double := {| fn_module := "__main__"; fn_name := "double";
                   fn_body := fun a w => (Return (PList (a ++ a)), w) |} in
  (apply (@cacheable sample_runtime None (PInt 0) double) [PInt 7] empty_world
   = (Return (PList [PInt 7; PInt 7]), log (EvCall "double") empty_world)) /\
  (memcache (snd (apply (@cacheable sample_runtime None PNone double) [PInt 7] empty_world))
   = memcache empty_world /\
   count is_cache_op
     (trace (snd (apply (@cacheable sample_runtime None PNone double) [PInt 7] empty_world)))
   = count is_cache_op (trace empty_world)).
Proof.
  intros double. split.
  - exact (proj1 (@cacheable_without_expiration sample_runtime None (PInt 0) double
                    [PInt 7] empty_world eq_refl)).
  - exact (proj2 (@cacheable_without_expiration sample_runtime None PNone double
                    [PInt 7] empty_world eq_refl)
             (fun _ _ => conj eq_refl eq_refl)).
Defined.

(** ** The profile service *)

Section ProfileProperties.
Context `{Runtime}.

Lemma profile_api_url_format nickname :
  py_mod "http://friendfeed.com/api/user/%s/profile?include=name,nickname,services"
    (FmtOne nickname) = Return (profile_api_url nickname).
Proof. reflexivity. Qed.

Lemma annotations_url_format nickname :
  py_mod ANNOTATIONS_URL_TEMPLATE (FmtOne nickname) = Return (annotations_url nickname).
Proof. reflexivity. Qed.

Lemma format_not_found nickname :
  py_mod "User %s not found" (FmtOne nickname)
  = Return ("User " +:+ py_str nickname +:+ " not found").
Proof. reflexivity. Qed.

Lemma format_private nickname :
  py_mod "User %s is private" (FmtOne nickname)
  = Return ("User " +:+ py_str nickname +:+ " is private").
Proof. reflexivity. Qed.

Lemma format_could_not_load nickname :
  py_mod "could not load friendfeed user %s" (FmtOne nickname)
  = Return ("could not load friendfeed user " +:+ py_str nickname).
Proof. unfold py_mod. cbn. rewrite append_nil_r. reflexivity. Qed.

Lemma format_could_not_parse nickname :
  py_mod "could not parse friendfeed user %s" (FmtOne nickname)
  = Return ("could not parse friendfeed user " +:+ py_str nickname).
Proof. unfold py_mod. cbn. rewrite append_nil_r. reflexivity. Qed.

(** The format string of the third status branch has no conversion, so the
    status code it is applied to is left over. *)
Lemma format_unknown_code (code : Z) :
  py_mod "Unknown friendfeed code" (FmtOne (PInt code))
  = Raise (TypeError "not all arguments converted during string formatting").
Proof. reflexivity. Qed.

(** C5. For a false nickname the body of [get_friendfeed_profile] raises
    the user error "nickname required" and leaves the world as it found it.
    Through the decorator, when memcache holds no true value under the key
    of that nickname, the call raises the same error after one memcache
    read and the one run of the body: no fetch is made and memcache is
    unchanged. *)
Theorem get_friendfeed_profile_empty_nickname nickname w :
  truthy nickname = false ->
  let key := global_key get_friendfeed_profile nickname in
  let w' := log (EvCall "get_friendfeed_profile") (log (EvCacheGet key) w) in
  get_friendfeed_profile_def nickname w = (Raise (UserError "nickname required"), w) /\
  (truthy (default PNone (memcache w !! key)) = false ->
   apply get_friendfeed_profile [nickname] w = (Raise (UserError "nickname required"), w')) /\
  memcache w' = memcache w /\
  count is_fetch (trace w') = count is_fetch (trace w).
Proof.
  intros Hn key w'.
  assert (Hdef : forall w0, get_friendfeed_profile_def nickname w0
                            = (Raise (UserError "nickname required"), w0)).
  { intros w0. unfold get_friendfeed_profile_def. rewrite Hn. reflexivity. }
  split; [apply Hdef|]. split; [|split].
  - intros Hmiss. unfold apply, get_friendfeed_profile, cacheable. cbn [fn_body].
    rewrite (call_cached None _ _ _ nickname) by reflexivity.
    cbv zeta. fold get_friendfeed_profile. change (global_key _ nickname) with key.
    rewrite Hmiss. cbn [def1 fn_body fn_name]. rewrite Hdef. reflexivity.
  - reflexivity.
  - unfold w'. cbn [log trace]. rewrite !count_app. cbn. lia.
Qed.

(** C2. How the body of [get_friendfeed_profile] reads the answer [r] that
    [get_url] returns for a true nickname: 404 raises the user error "User
    ... not found"; 401 the user error "User ... is private"; 200 with an
    empty body the server error "could not load ..."; 200 with a body that
    decodes to a false value the server error "could not parse ..."; 200
    with a body that decodes to a true value returns that value.  A status
    other than 404, 401 and 200 does not reach [ServerError]: building its
    message raises [TypeError].  A body the decoder rejects raises the
    decoder's own exception. *)
Theorem get_friendfeed_profile_status_cases nickname r w w' :
  truthy nickname = true ->
  apply get_url [PStr (profile_api_url nickname)] w = (Return (PFetched r), w') ->
  let outcome := get_friendfeed_profile_def nickname w in
  (status_code r = 404%Z ->
   outcome = (Raise (UserError ("User " +:+ py_str nickname +:+ " not found")), w')) /\
  (status_code r = 401%Z ->
   outcome = (Raise (UserError ("User " +:+ py_str nickname +:+ " is private")), w')) /\
  (status_code r <> 404%Z -> status_code r <> 401%Z -> status_code r <> 200%Z ->
   outcome = (Raise (TypeError "not all arguments converted during string formatting"), w')) /\
  (status_code r = 200%Z -> content r = "" ->
   outcome = (Raise (ServerError ("could not load friendfeed user " +:+ py_str nickname)), w')) /\
  (status_code r = 200%Z -> content r <> "" ->
   (forall e, simplejson_loads (content r) = Raise e -> outcome = (Raise e, w')) /\
   (forall profile, simplejson_loads (content r) = Return profile ->
      truthy profile = false ->
      outcome = (Raise (ServerError ("could not parse friendfeed user " +:+ py_str nickname)), w')) /\
   (forall profile, simplejson_loads (content r) = Return profile ->
      truthy profile = true -> outcome = (Return profile, w'))).
Proof.
  intros Hn Hget outcome.
  assert (Hrun : outcome =
    (if (status_code r =? 404)%Z then
       message <- lift (py_mod "User %s not found" (FmtOne nickname)) ;;
       raise (UserError message)
     else if (status_code r =? 401)%Z then
       message <- lift (py_mod "User %s is private" (FmtOne nickname)) ;;
       raise (UserError message)
     else if negb (status_code r =? 200)%Z then
       message <- lift (py_mod "Unknown friendfeed code" (FmtOne (PInt (status_code r)))) ;;
       raise (ServerError message)
     else
       if negb (truthy (PStr (content r))) then
         message <- lift (py_mod "could not load friendfeed user %s" (FmtOne nickname)) ;;
         raise (ServerError message)
       else
         friendfeed_profile <- lift (simplejson_loads (content r)) ;;
         if negb (truthy friendfeed_profile) then
           message <- lift (py_mod "could not parse friendfeed user %s" (FmtOne nickname)) ;;
           raise (ServerError message)
         else ret friendfeed_profile) w').
  { unfold outcome, get_friendfeed_profile_def. rewrite Hn. cbn [negb].
    unfold bind at 1. unfold lift at 1. rewrite profile_api_url_format.
    unfold bind at 1. rewrite Hget. reflexivity. }
  rewrite Hrun. clear Hrun outcome.
  split; [|split; [|split; [|split]]].
  - intros ->. cbn [Z.eqb Pos.eqb]. rewrite format_not_found. reflexivity.
  - intros ->. cbn [Z.eqb Pos.eqb]. rewrite format_private. reflexivity.
  - intros H404 H401 H200.
    destruct (Z.eqb_spec (status_code r) 404); [contradiction|].
    destruct (Z.eqb_spec (status_code r) 401); [contradiction|].
    destruct (Z.eqb_spec (status_code r) 200); [contradiction|].
    cbn [negb]. rewrite format_unknown_code. reflexivity.
  - intros -> ->. cbn [Z.eqb Pos.eqb negb truthy String.eqb].
    rewrite format_could_not_load. reflexivity.
  - intros -> Hc.
    assert (Ht : truthy (PStr (content r)) = true) by (apply truthy_PStr, Hc).
    cbn [Z.eqb Pos.eqb negb]. rewrite Ht. cbn [negb].
    split; [|split].
    + intros e He. unfold bind, lift. rewrite He. reflexivity.
    + intros profile Hp Hf. unfold bind at 1. unfold lift at 1. rewrite Hp, Hf.
      cbn [negb]. unfold bind, lift. rewrite format_could_not_parse. reflexivity.
    + intros profile Hp Hf. unfold bind, lift. rewrite Hp, Hf. reflexivity.
Qed.

(** C10. When [get_url] answers the annotations URL of a nickname with a
    status other than 200, [get_annotations] returns [None], which is not
    the empty string; on status 200 it returns the body of the answer. *)
Theorem get_annotations_returns_None_unless_200 nickname r w w' :
  apply get_url [PStr (annotations_url nickname)] w = (Return (PFetched r), w') ->
  (status_code r <> 200%Z -> get_annotations nickname w = (Return PNone, w')) /\
  (status_code r = 200%Z -> get_annotations nickname w = (Return (PStr (content r)), w')) /\
  PNone <> PStr "".
Proof.
  intros Hget.
  assert (Hrun : get_annotations nickname w =
    (if negb (status_code r =? 200)%Z then ret PNone else ret (PStr (content r))) w').
  { unfold get_annotations.
    unfold bind at 1. unfold lift at 1. rewrite annotations_url_format.
    unfold bind at 1. rewrite Hget. reflexivity. }
  rewrite Hrun. split; [|split].
  - intros Hne. destruct (Z.eqb_spec (status_code r) 200); [contradiction|reflexivity].
  - intros ->. reflexivity.
  - discriminate.
Qed.

End ProfileProperties.

(** The profile service run on the sample deployment. *)

Example fetch_known_user :
  fst (@get_friendfeed_profile_def sample_runtime (PStr "jdoe") empty_world)
  = Return (PDict sample_profile).
Proof. reflexivity. Qed.

Example fetch_missing_user :
  fst (@get_friendfeed_profile_def sample_runtime (PStr "ghost") empty_world)
  = Raise (UserError "User ghost not found").
Proof. reflexivity. Qed.

Example fetch_private_user :
  fst (@get_friendfeed_profile_def sample_runtime (PStr "shy") empty_world)
  = Raise (UserError "User shy is private").
Proof. reflexivity. Qed.

Example fetch_unknown_status :
  fst (@get_friendfeed_profile_def sample_runtime (PStr "broken") empty_world)
  = Raise (TypeError "not all arguments converted during string formatting").
Proof. reflexivity. Qed.

Example fetch_undecodable_body :
  fst (@get_friendfeed_profile_def sample_runtime (PStr "garbled") empty_world)
  = Raise (ValueError "No JSON object could be decoded").
Proof. reflexivity. Qed.

Example fetch_trace :
  trace (snd (@get_friendfeed_profile_def sample_runtime (PStr "jdoe") empty_world))
  = [EvCacheGet ("__main__:get_url:" +:+ sample_api "jdoe"); EvCall "get_url";
     EvFetch (sample_api "jdoe"); EvCacheAdd ("__main__:get_url:" +:+ sample_api "jdoe")].
Proof. reflexivity. Qed.

Example cse_names_of_sample :
  get_cse_names (PDict sample_profile) = Return ["twitter.com/jdoe"; "twitter.com/jdoe/*"].
Proof. reflexivity. Qed.

(** C4. On a profile that is a mapping, [get_friendfeed_name] returns the
    value under [name] whenever that key is present, whatever [nickname]
    holds; without [name], the value under [nickname]; without both, the
    nickname that was asked for. *)
Theorem get_friendfeed_name_spec (profile : gmap string pyval) (requested : pyval) :
  (forall v, profile !! "name" = Some v ->
     get_friendfeed_name (PDict profile) requested = Return v) /\
  (forall v, profile !! "name" = None -> profile !! "nickname" = Some v ->
     get_friendfeed_name (PDict profile) requested = Return v) /\
  (profile !! "name" = None -> profile !! "nickname" = None ->
     get_friendfeed_name (PDict profile) requested = Return requested).
Proof.
  unfold get_friendfeed_name, py_getitem. repeat split.
  - intros v ->. reflexivity.
  - intros v -> ->. reflexivity.
  - intros -> ->. reflexivity.
Qed.

Lemma get_friendfeed_name_spec_witness :
  get_friendfeed_name (PDict sample_profile) (PStr "jd") = Return (PStr "John Doe") /\
  get_friendfeed_name (PDict (delete "name" sample_profile)) (PStr "jd")
    = Return (PStr "jdoe") /\
  get_friendfeed_name (PDict ∅) (PStr "jd") = Return (PStr "jd").
Proof.
  split; [|split].
  - apply (proj1 (get_friendfeed_name_spec sample_profile (PStr "jd"))).
    reflexivity.
  - apply (proj1 (proj2 (get_friendfeed_name_spec (delete "name" sample_profile) (PStr "jd"))));
      reflexivity.
  - apply (proj2 (proj2 (get_friendfeed_name_spec ∅ (PStr "jd")))); reflexivity.
Defined.

Lemma get_friendfeed_profile_empty_nickname_witness :
  let key := @global_key sample_runtime (@get_friendfeed_profile sample_runtime) (PStr "") in
  let w' := log (EvCall "get_friendfeed_profile") (log (EvCacheGet key) empty_world) in
  @get_friendfeed_profile_def sample_runtime (PStr "") empty_world
    = (Raise (UserError "nickname required"), empty_world) /\
  (truthy (default PNone (memcache empty_world !! key)) = false ->
   apply (@get_friendfeed_profile sample_runtime) [PStr ""] empty_world
     = (Raise (UserError "nickname required"), w')) /\
  memcache w' = memcache empty_world /\
  count is_fetch (trace w') = count is_fetch (trace empty_world).
Proof.
  exact (@get_friendfeed_profile_empty_nickname sample_runtime (PStr "") empty_world eq_refl).
Defined.

Lemma get_friendfeed_profile_status_cases_witness :
  @get_friendfeed_profile_def sample_runtime (PStr "broken") empty_world
  = (Raise (TypeError "not all arguments converted during string formatting"),
     snd (apply (@get_url sample_runtime)
            [PStr (@profile_api_url sample_runtime (PStr "broken"))] empty_world)).
Proof.
  refine (proj1 (proj2 (proj2
            (@get_friendfeed_profile_status_cases sample_runtime (PStr "broken")
               {| status_code := 500; content := "" |} empty_world _ eq_refl _))) _ _ _).
  - reflexivity.
  - discriminate.
  - discriminate.
  - discriminate.
Defined.

Lemma get_annotations_returns_None_unless_200_witness :
  @get_annotations sample_runtime (PStr "ghost") empty_world
  = (Return PNone,
     snd (apply (@get_url sample_runtime)
            [PStr (@annotations_url sample_runtime (PStr "ghost"))] empty_world)).
Proof.
  refine (proj1 (@get_annotations_returns_None_unless_200 sample_runtime (PStr "ghost")
                   {| status_code := 503; content := "unavailable" |} empty_world _ _) _).
  - reflexivity.
  - discriminate.
Defined.

(** ** Views *)

Lemma has_upper_not_islower p : has_upper p = true -> py_islower p = false.
Proof. intros Hp. unfold py_islower. rewrite Hp. reflexivity. Qed.

Lemma caseless_not_islower p : has_lower p = false -> py_islower p = false.
Proof. intros Hp. unfold py_islower. rewrite Hp. apply andb_false_r. Qed.

Lemma py_lower_no_upper p : has_upper p = false -> py_lower p = p.
Proof.
  induction p as [|c p IH]; [reflexivity|].
  cbn [has_upper py_lower]. intros Hp. apply orb_false_elim in Hp as [Hc Hp].
  unfold lower_char. rewrite Hc, (IH Hp). reflexivity.
Qed.

Lemma has_lower_app x y : has_lower (x +:+ y) = has_lower x || has_lower y.
Proof.
  induction x as [|c x IH]; [reflexivity|].
  change (String c x +:+ y) with (String c (x +:+ y)).
  cbn [has_lower]. rewrite IH, orb_assoc. reflexivity.
Qed.

Lemma has_upper_app x y : has_upper (x +:+ y) = has_upper x || has_upper y.
Proof.
  induction x as [|c x IH]; [reflexivity|].
  change (String c x +:+ y) with (String c (x +:+ y)).
  cbn [has_upper]. rewrite IH, orb_assoc. reflexivity.
Qed.

Lemma trace_memcache_add key v time w :
  trace (snd (memcache_add key v time w)) = (trace w ++ [EvCacheAdd key])%list.
Proof. unfold memcache_add. destruct (memcache w !! key); reflexivity. Qed.

Section ViewProperties.
Context `{Runtime}.

Lemma request_keygen_path r rest :
  path r <> "" -> local_key_of (Some request_keygen) (PRequest r :: rest) = Return (PStr (path r)).
Proof.
  intros Hp. cbn [local_key_of request_keygen truthy negb request_path].
  destruct (String.eqb_spec (path r) ""); [contradiction|reflexivity].
Qed.

(** The guard every per-user view starts with. *)
Lemma per_user_view_guard view r nickname w :
  In view per_user_views ->
  py_islower (path r) = false ->
  view (PRequest r) nickname w
  = (Return (PResponse (HTTPMovedPermanently (py_lower (path r)))), w).
Proof.
  intros Hin Hlow.
  assert (Hcases : view = UserView_def \/ view = OsdView_def \/ view = CrefView_def \/
                   view = AnnotationView_def \/ view = AnnotationListView_def).
  { unfold per_user_views in Hin. cbn [In] in Hin. intuition auto. }
  destruct Hcases as [-> | [-> | [-> | [-> | ->]]]];
    [unfold UserView_def | unfold OsdView_def | unfold CrefView_def
    | unfold AnnotationView_def | unfold AnnotationListView_def];
    unfold bind at 1; unfold lift at 1; cbn [request_path]; rewrite Hlow; reflexivity.
Qed.

(** Each cached handler wraps one of the per-user views under the same
    module, keyed by the request path. *)
Lemma per_user_handler_inv f :
  In f per_user_handlers ->
  exists name view,
    In view per_user_views /\
    f = cacheable (Some request_keygen) (PInt CACHE_EXPIRATION) (def2 name view).
Proof.
  unfold per_user_handlers, per_user_views. cbn [In].
  intros [<- | [<- | [<- | [<- | [<- | []]]]]]; eexists _, _; (split; [|reflexivity]);
    cbn [In]; auto 7.
Qed.

(** C7. When the path of the request has an upper-case letter, or fails
    [islower] for want of any cased letter, each of the five per-user views
    returns the permanent redirect to the lower-cased path and leaves the
    world as it found it: nothing is fetched and nothing is rendered.
    Through the decorator, when the path is not empty and memcache holds no
    true value under the key of the path, the handler returns the same
    redirect with no fetch and no rendering in the trace. *)
Theorem per_user_views_redirect_to_lowercase r nickname w :
  has_upper (path r) = true \/ has_lower (path r) = false ->
  let redirect := PResponse (HTTPMovedPermanently (py_lower (path r))) in
  py_islower (path r) = false /\
  (forall view, In view per_user_views ->
     view (PRequest r) nickname w = (Return redirect, w)) /\
  (forall f, In f per_user_handlers ->
     path r <> "" ->
     truthy (default PNone (memcache w !! global_key f (PStr (path r)))) = false ->
     exists w',
       apply f [PRequest r; nickname] w = (Return redirect, w') /\
       count is_fetch (trace w') = count is_fetch (trace w) /\
       count is_render (trace w') = count is_render (trace w)).
Proof.
  intros Hcase redirect.
  assert (Hlow : py_islower (path r) = false).
  { destruct Hcase; [apply has_upper_not_islower | apply caseless_not_islower]; assumption. }
  split; [exact Hlow|]. split.
  - intros view Hin. apply per_user_view_guard; assumption.
  - intros f Hin Hp Hmiss.
    destruct (per_user_handler_inv f Hin) as (name & view & Hview & ->).
    eexists. split; [|split].
    + unfold apply, cacheable at 1. cbn [fn_body].
      rewrite (call_cached _ (PInt CACHE_EXPIRATION) _ _ _ _ eq_refl
                 (request_keygen_path r [nickname] Hp)).
      cbv zeta. unfold cacheable in Hmiss. cbn [fn_module fn_name] in Hmiss.
      unfold global_key in *. cbn [fn_module fn_name def2] in *.
      rewrite Hmiss. cbn [fn_body def2].
      rewrite (per_user_view_guard view r nickname _ Hview Hlow).
      reflexivity.
    + rewrite trace_memcache_add. cbn [log trace]. rewrite !count_app. cbn. lia.
    + rewrite trace_memcache_add. cbn [log trace]. rewrite !count_app. cbn. lia.
Qed.

(** C9, as amended.  Every path made of [/friendfeed/] and a rest without
    upper-case letters passes [islower], whatever the rest is, so a
    per-user route with an all-digit nickname is not redirected.  A path
    with no cased character at all, which no per-user route has, fails
    [islower], and each per-user view then answers it with the permanent
    redirect to the very same path. *)
Theorem caseless_path_redirects_to_itself r nickname w :
  (forall rest, has_upper rest = false -> py_islower ("/friendfeed/" +:+ rest) = true) /\
  (has_upper (path r) = false -> has_lower (path r) = false ->
   py_islower (path r) = false /\
   forall view, In view per_user_views ->
     view (PRequest r) nickname w
     = (Return (PResponse (HTTPMovedPermanently (path r))), w)).
Proof.
  split.
  - intros rest Hrest. unfold py_islower.
    rewrite has_upper_app, has_lower_app, Hrest. reflexivity.
  - intros Hup Hlo. split; [apply caseless_not_islower, Hlo|].
    intros view Hin.
    rewrite (per_user_view_guard view r nickname w Hin (caseless_not_islower _ Hlo)).
    rewrite (py_lower_no_upper _ Hup). reflexivity.
Qed.

End ViewProperties.

Lemma per_user_views_redirect_to_lowercase_witness :
  let r := {| path := "/friendfeed/JohnDoe/"; form := ∅ |} in
  let redirect := PResponse (HTTPMovedPermanently "/friendfeed/johndoe/") in
  py_islower (path r) = false /\
  (forall view, In view (@per_user_views sample_runtime) ->
     view (PRequest r) (PStr "JohnDoe") empty_world = (Return redirect, empty_world)) /\
  (forall f, In f (@per_user_handlers sample_runtime) ->
     path r <> "" ->
     truthy (default PNone
               (memcache empty_world !! @global_key sample_runtime f (PStr (path r)))) = false ->
     exists w',
       apply f [PRequest r; PStr "JohnDoe"] empty_world = (Return redirect, w') /\
       count is_fetch (trace w') = count is_fetch (trace empty_world) /\
       count is_render (trace w') = count is_render (trace empty_world)).
Proof.
  exact (@per_user_views_redirect_to_lowercase sample_runtime
           {| path := "/friendfeed/JohnDoe/"; form := ∅ |} (PStr "JohnDoe") empty_world
           (or_introl eq_refl)).
Defined.

Lemma caseless_path_redirects_to_itself_witness :
  py_islower "/friendfeed/123/" = true /\
  py_islower "/123/" = false /\
  (forall view, In view (@per_user_views sample_runtime) ->
     view (sample_request "/123/") (PStr "123") empty_world
     = (Return (PResponse (HTTPMovedPermanently "/123/")), empty_world)).
Proof.
  pose proof (@caseless_path_redirects_to_itself sample_runtime
                {| path := "/123/"; form := ∅ |} (PStr "123") empty_world) as [Hroute Hself].
  split; [exact (Hroute "123/" eq_refl)|].
  exact (Hself eq_refl eq_refl).
Defined.

(** C9, the claim as given, at the path it names: [/friendfeed/123/] holds
    the lower-case letters of [friendfeed], passes [islower], and the user
    view fetches the profile and renders the page instead of redirecting. *)
Lemma digits_nickname_is_rendered :
  has_upper "/friendfeed/123/" = false /\
  has_lower "/friendfeed/123/" = true /\
  py_islower "/friendfeed/123/" = true /\
  fst (@UserView_def sample_runtime (sample_request "/friendfeed/123/") (PStr "123")
         empty_world)
  = Return (PResponse (Response "200 OK" "text/html" "rendered templates/user.tmpl")) /\
  fst (@UserView_def sample_runtime (sample_request "/friendfeed/123/") (PStr "123")
         empty_world)
  <> Return (PResponse (HTTPMovedPermanently "/friendfeed/123/")).
Proof.
  repeat split; try reflexivity.
  vm_compute. discriminate.
Qed.

(** ** The dispatcher *)

Lemma slice_0_m1_last s c : last_char s = Some c -> py_slice_0_m1 s +:+ String c "" = s.
Proof.
  induction s as [|a s IH]; [discriminate|].
  destruct s as [|b s'].
  - cbn. intros [= ->]. reflexivity.
  - intros Hl.
    change (py_slice_0_m1 (String a (String b s')) +:+ String c "")
      with (String a (py_slice_0_m1 (String b s') +:+ String c "")).
    f_equal. apply IH.
    cbn [last_char] in Hl |- *.
    destruct (last_char s'); exact Hl.
Qed.

Lemma slice_0_m1_slash p : py_endswith p "/" = true -> py_slice_0_m1 p +:+ "/" = p.
Proof.
  rewrite py_endswith_last. destruct (last_char p) as [c|] eqn:El; [|discriminate].
  intros Hc. apply Ascii.eqb_eq in Hc. subst c. apply slice_0_m1_last, El.
Qed.

Section DispatcherProperties.
Context `{Runtime}.

Lemma format_page_moved new_url :
  py_mod "Page moved to %s" (FmtOne (PStr new_url)) = Return ("Page moved to " +:+ new_url).
Proof. unfold py_mod. cbn. rewrite append_nil_r. reflexivity. Qed.

(** C8. Registering a GET handler under a pattern that ends with a slash
    appends two bindings to the router: the pattern with the wrapped view,
    and the pattern without its last character with
    [_redirect_with_slash]; putting the slash back on the second pattern
    gives the first.  [_redirect_with_slash], run on an environment in
    which the router has left the requested slash-less path in
    [SCRIPT_NAME], replies 301 Moved Permanently with that path plus a
    slash as Location. *)
Theorem add_get_handler_adds_slash_redirect self pattern f error_handler :
  py_endswith pattern "/" = true ->
  let handler :=
    _make_request f (match error_handler with
                     | None => _error_handler self
                     | Some _ => error_handler
                     end) in
  bindings (_urls (add_get_handler self pattern f error_handler))
  = (bindings (_urls self)
       ++ [(pattern, GET, handler);
           (py_slice_0_m1 pattern, GET, wsgi_function _redirect_with_slash)])%list /\
  py_slice_0_m1 pattern +:+ "/" = pattern /\
  forall (environ : gmap string string) requested,
    environ !! "SCRIPT_NAME" = Some requested ->
    _redirect_with_slash environ
    = Return {| reply_status := "301 Moved Permanently";
                reply_headers := [("content-type", "text/html");
                                  ("Location", requested +:+ "/")];
                reply_body := ["Page moved to " +:+ requested +:+ "/"] |}.
Proof.
  intros Hslash handler. split; [|split].
  - unfold add_get_handler. rewrite Hslash. cbn [_urls router_add bindings].
    rewrite <- app_assoc. reflexivity.
  - apply slice_0_m1_slash, Hslash.
  - intros environ requested Hsn. unfold _redirect_with_slash.
    rewrite Hsn, format_page_moved. reflexivity.
Qed.

End DispatcherProperties.

Lemma add_get_handler_adds_slash_redirect_witness :
  let self := @add_get_handler sample_runtime new_Dispatcher
                "/friendfeed/{nickname:word}/" (@UserView sample_runtime) None in
  bindings (_urls self)
  = [("/friendfeed/{nickname:word}/", GET, _make_request (@UserView sample_runtime) None);
     ("/friendfeed/{nickname:word}", GET,
      wsgi_function (@_redirect_with_slash sample_runtime))] /\
  "/friendfeed/{nickname:word}" +:+ "/" = "/friendfeed/{nickname:word}/" /\
  @_redirect_with_slash sample_runtime (<["SCRIPT_NAME" := "/friendfeed/jdoe"]> ∅)
  = Return {| reply_status := "301 Moved Permanently";
              reply_headers := [("content-type", "text/html");
                                ("Location", "/friendfeed/jdoe/")];
              reply_body := ["Page moved to /friendfeed/jdoe/"] |}.
Proof.
  destruct (@add_get_handler_adds_slash_redirect sample_runtime new_Dispatcher
              "/friendfeed/{nickname:word}/" (@UserView sample_runtime) None eq_refl)
    as (Hb & Hp & Hr).
  split; [exact Hb|]. split; [exact Hp|].
  exact (Hr (<["SCRIPT_NAME" := "/friendfeed/jdoe"]> ∅) "/friendfeed/jdoe" eq_refl).
Defined.

(** * Further properties *)

(** ** More on the caching decorator *)

Lemma colon_free_names_agree n1 n2 a b :
  py_in ":" n1 = false -> py_in ":" n2 = false ->
  n1 +:+ ":" +:+ a = n2 +:+ ":" +:+ b -> n1 = n2.
Proof.
  revert n2. induction n1 as [|c n1 IH]; intros [|d n2] H1 H2 Heq.
  - reflexivity.
  - change ("" +:+ ":" +:+ a) with (String ":" a) in Heq.
    change (String d n2 +:+ ":" +:+ b) with (String d (n2 +:+ ":" +:+ b)) in Heq.
    injection Heq as Hd _. subst d.
    rewrite py_in_char_cons in H2. discriminate H2.
  - change ("" +:+ ":" +:+ b) with (String ":" b) in Heq.
    change (String c n1 +:+ ":" +:+ a) with (String c (n1 +:+ ":" +:+ a)) in Heq.
    injection Heq as Hc _. subst c.
    rewrite py_in_char_cons in H1. discriminate H1.
  - change (String c n1 +:+ ":" +:+ a) with (String c (n1 +:+ ":" +:+ a)) in Heq.
    change (String d n2 +:+ ":" +:+ b) with (String d (n2 +:+ ":" +:+ b)) in Heq.
    injection Heq as Hc Hrest. subst d.
    rewrite py_in_char_cons in H1, H2.
    apply orb_false_elim in H1 as [_ H1]. apply orb_false_elim in H2 as [_ H2].
    f_equal. apply IH; assumption.
Qed.

Lemma append_inj_l m x y : m +:+ x = m +:+ y -> x = y.
Proof.
  induction m as [|c m IH]; [exact (fun E => E)|].
  change (String c m +:+ x) with (String c (m +:+ x)).
  change (String c m +:+ y) with (String c (m +:+ y)).
  intros [= E]. apply IH, E.
Qed.

Section CacheFurther.
Context `{Runtime}.

(** X1. A miss whose computation raises, or returns a false value, stores
    nothing: the call hands on the exception, respectively the value, and
    leaves the world exactly as the wrapped function left it.  Failures
    and empty results are therefore computed afresh by every call. *)
Theorem cacheable_miss_without_store keygen expiration f args local_key w :
  truthy expiration = true ->
  local_key_of keygen args = Return local_key ->
  let key := global_key f local_key in
  let started := log (EvCall (fn_name f)) (log (EvCacheGet key) w) in
  truthy (default PNone (memcache w !! key)) = false ->
  (forall e wf, fn_body f args started = (Raise e, wf) ->
     apply (cacheable keygen expiration f) args w = (Raise e, wf)) /\
  (forall v wf, fn_body f args started = (Return v, wf) -> truthy v = false ->
     apply (cacheable keygen expiration f) args w = (Return v, wf)).
Proof.
  intros Hexp Hkey key started Hmiss.
  assert (Hcall : forall out, fn_body f args started = out ->
            apply (cacheable keygen expiration f) args w =
            match out with
            | (Return v, w') =>
                if truthy v then (Return v, snd (memcache_add key v expiration w'))
                else (Return v, w')
            | (Raise e, w') => (Raise e, w')
            end).
  { intros out <-. unfold apply, cacheable. cbn [fn_body].
    rewrite (call_cached _ _ _ _ _ _ Hexp Hkey). cbv zeta. fold key.
    rewrite Hmiss. reflexivity. }
  split.
  - intros e wf Hf. rewrite (Hcall _ Hf). reflexivity.
  - intros v wf Hf Hv. rewrite (Hcall _ Hf), Hv. reflexivity.
Qed.

(** X2. An entry that is present but false blocks the cache for its key:
    the read counts as a miss, the wrapped function is run, and
    [memcache.add] does not replace the entry, so memcache after the call
    is what the wrapped function left and the next call misses again. *)
Theorem cacheable_false_entry_is_never_replaced keygen expiration f args local_key
    old v w wf :
  truthy expiration = true ->
  local_key_of keygen args = Return local_key ->
  let key := global_key f local_key in
  memcache w !! key = Some old ->
  truthy old = false ->
  fn_body f args (log (EvCall (fn_name f)) (log (EvCacheGet key) w)) = (Return v, wf) ->
  memcache wf !! key = Some old ->
  exists w',
    apply (cacheable keygen expiration f) args w = (Return v, w') /\
    memcache w' = memcache wf /\
    truthy (default PNone (memcache w' !! key)) = false.
Proof.
  intros Hexp Hkey key Hold Hfalse Hf Hkept.
  unfold apply, cacheable. cbn [fn_body].
  rewrite (call_cached _ _ _ _ _ _ Hexp Hkey). cbv zeta. fold key.
  rewrite Hold. cbn [from_option id]. rewrite Hfalse, Hf.
  destruct (truthy v).
  - unfold memcache_add. rewrite Hkept. cbn [snd].
    exists (log (EvCacheAdd key) wf). split; [reflexivity|].
    cbn [log memcache]. rewrite Hkept. split; [reflexivity|exact Hfalse].
  - exists wf. split; [reflexivity|]. rewrite Hkept. split; [reflexivity|exact Hfalse].
Qed.

(** X3. When the wrapped function leaves memcache alone, the only change a
    decorated call can make to memcache is to add its own global key where
    there was none: every other key, and every key that was present, reads
    as before. *)
Theorem cacheable_only_adds_its_key keygen expiration f args w k :
  (forall a w0, memcache (snd (fn_body f a w0)) = memcache w0) ->
  let w' := snd (apply (cacheable keygen expiration f) args w) in
  memcache w' !! k = memcache w !! k \/
  (memcache w !! k = None /\
   exists local_key,
     local_key_of keygen args = Return local_key /\ k = global_key f local_key).
Proof.
  intros Hquiet w'. subst w'. unfold apply, cacheable. cbn [fn_body].
  destruct (truthy expiration) eqn:Hexp.
  - destruct (local_key_of keygen args) as [local_key|e] eqn:Hkey.
    + rewrite (call_cached _ _ _ _ _ _ Hexp Hkey). cbv zeta.
      set (key := global_key f local_key).
      destruct (truthy (default PNone (memcache w !! key))); [left; reflexivity|].
      pose proof (Hquiet args (log (EvCall (fn_name f)) (log (EvCacheGet key) w))) as Hq.
      destruct (fn_body f args _) as [[v|e] wf]; cbn [snd] in Hq |- *;
        cbn [log memcache] in Hq.
      * destruct (truthy v); cbn [snd]; [|left; rewrite Hq; reflexivity].
        unfold memcache_add. destruct (memcache wf !! key) eqn:Hk; cbn [snd log memcache].
        -- left. rewrite Hq. reflexivity.
        -- destruct (decide (key = k)) as [<-|Hne].
           ++ right. rewrite <- Hq. split; [exact Hk|]. exists local_key. split; reflexivity.
           ++ left. rewrite lookup_insert_ne by exact Hne. rewrite Hq. reflexivity.
      * left. rewrite Hq. reflexivity.
    + left. unfold call. rewrite Hexp. cbn [negb]. unfold bind, lift. rewrite Hkey.
      reflexivity.
  - left. unfold call. rewrite Hexp. cbn [negb]. unfold invoke.
    rewrite Hquiet. reflexivity.
Qed.


Lemma global_key_neq f g a b :
  fn_module f = fn_module g ->
  py_in ":" (fn_name f) = false -> py_in ":" (fn_name g) = false ->
  fn_name f <> fn_name g ->
  global_key f a <> global_key g b.
Proof.
  intros Hm Hf Hg Hne Heq. apply Hne.
  unfold global_key in Heq. rewrite Hm in Heq.
  apply append_inj_l in Heq.
  change (":" +:+ ?x) with (String ":" x) in Heq.
  injection Heq as Heq.
  exact (colon_free_names_agree _ _ _ _ Hf Hg Heq).
Qed.

(** X5. Two functions of one module whose names differ (and hold no colon)
    never share a cache key, whatever their local keys; and one function
    uses the same key for two local keys exactly when they print alike. *)
Theorem global_keys_are_separate f g a b :
  (fn_module f = fn_module g ->
   py_in ":" (fn_name f) = false -> py_in ":" (fn_name g) = false ->
   fn_name f <> fn_name g ->
   global_key f a <> global_key g b) /\
  (global_key f a = global_key f b <-> py_str a = py_str b).
Proof.
  split; [apply global_key_neq|].
  unfold global_key. split.
  - intros Heq. apply append_inj_l in Heq.
    change (":" +:+ ?x) with (String ":" x) in Heq. injection Heq as Heq.
    apply append_inj_l in Heq.
    change (":" +:+ ?x) with (String ":" x) in Heq. injection Heq as Heq.
    exact Heq.
  - intros ->. reflexivity.
Qed.

End CacheFurther.

Lemma cacheable_miss_without_store_witness :
  let failing := {| fn_module := "__main__"; fn_name := "failing";
                    fn_body := fun _ w => (Raise (DownloadError "timeout"), w) |} in
  let nothing := {| fn_module := "__main__"; fn_name := "nothing";
                    fn_body := fun _ w => (Return (PList []), w) |} in
  apply (@cacheable sample_runtime None (PInt 60) failing) [PStr "a"] empty_world
  = (Raise (DownloadError "timeout"),
     log (EvCall "failing") (log (EvCacheGet "__main__:failing:a") empty_world)) /\
  apply (@cacheable sample_runtime None (PInt 60) nothing) [PStr "a"] empty_world
  = (Return (PList []),
     log (EvCall "nothing") (log (EvCacheGet "__main__:nothing:a") empty_world)).
Proof.
  intros failing nothing. split.
  - exact (proj1 (@cacheable_miss_without_store sample_runtime None (PInt 60) failing
                    [PStr "a"] (PStr "a") empty_world eq_refl eq_refl eq_refl)
             _ _ eq_refl).
  - exact (proj2 (@cacheable_miss_without_store sample_runtime None (PInt 60) nothing
                    [PStr "a"] (PStr "a") empty_world eq_refl eq_refl eq_refl)
             _ _ eq_refl eq_refl).
Defined.

Lemma cacheable_false_entry_is_never_replaced_witness :
  let five := {| fn_module := "__main__"; fn_name := "five";
                 fn_body := fun _ w => (Return (PInt 5), w) |} in
  let w := {| memcache := <["__main__:five:a" := PInt 0]> ∅; trace := [] |} in
  exists w',
    apply (@cacheable sample_runtime None (PInt 60) five) [PStr "a"] w
    = (Return (PInt 5), w') /\
    memcache w' = memcache (log (EvCall "five") (log (EvCacheGet "__main__:five:a") w)) /\
    truthy (default PNone (memcache w' !! "__main__:five:a")) = false.
Proof.
  intros five w.
  exact (@cacheable_false_entry_is_never_replaced sample_runtime None (PInt 60) five
           [PStr "a"] (PStr "a") (PInt 0) (PInt 5) w
           (log (EvCall "five") (log (EvCacheGet "__main__:five:a") w))
           eq_refl eq_refl eq_refl eq_refl eq_refl eq_refl).
Defined.

Lemma cacheable_only_adds_its_key_witness :
  let five := {| fn_module := "__main__"; fn_name := "five";
                 fn_body := fun _ w => (Return (PInt 5), w) |} in
  let w' := snd (apply (@cacheable sample_runtime None (PInt 60) five) [PStr "a"]
                   empty_world) in
  memcache w' !! "__main__:other:a" = memcache empty_world !! "__main__:other:a" \/
  (memcache empty_world !! "__main__:other:a" = None /\
   exists local_key,
     @local_key_of None [PStr "a"] = Return local_key /\
     "__main__:other:a" = @global_key sample_runtime five local_key).
Proof.
  intros five.
  exact (@cacheable_only_adds_its_key sample_runtime None (PInt 60) five [PStr "a"]
           empty_world "__main__:other:a" (fun _ _ => eq_refl)).
Defined.


Lemma global_keys_are_separate_witness :
  (@global_key sample_runtime (@get_url sample_runtime) (PStr "jdoe")
   <> @global_key sample_runtime (@get_friendfeed_profile sample_runtime) (PStr "jdoe")) /\
  (@global_key sample_runtime (@get_url sample_runtime) PNone
   = @global_key sample_runtime (@get_url sample_runtime) (PStr "None")).
Proof.
  pose proof (@global_keys_are_separate sample_runtime (@get_url sample_runtime)
                (@get_friendfeed_profile sample_runtime) (PStr "jdoe") (PStr "jdoe"))
    as [Hsep _].
  pose proof (@global_keys_are_separate sample_runtime (@get_url sample_runtime)
                (@get_url sample_runtime) PNone (PStr "None")) as [_ Hsame].
  split.
  - apply Hsep; [reflexivity | reflexivity | reflexivity | discriminate].
  - apply Hsame. reflexivity.
Defined.

(** ** More on fetching *)

Section FetchFurther.
Context `{Runtime}.

Lemma get_url_key u : global_key get_url (PStr u) = module_name +:+ ":get_url:" +:+ u.
Proof. reflexivity. Qed.

(** [get_url] on a key that holds nothing true: the URL is fetched, and the
    answer stored when the key is free. *)
Lemma get_url_fetches u w :
  truthy (default PNone (memcache w !! global_key get_url (PStr u))) = false ->
  let key := global_key get_url (PStr u) in
  let fetched := log (EvFetch u) (log (EvCall "get_url") (log (EvCacheGet key) w)) in
  apply get_url [PStr u] w =
  match urlfetch_fetch u with
  | Return r => (Return (PFetched r),
                 snd (memcache_add key (PFetched r) (PInt CACHE_EXPIRATION) fetched))
  | Raise e => (Raise e, fetched)
  end.
Proof.
  intros Hmiss key fetched. unfold apply, get_url, cacheable. cbn [fn_body].
  rewrite (call_cached None (PInt CACHE_EXPIRATION) _ _ (PStr u)) by reflexivity.
  cbv zeta. change (global_key _ (PStr u)) with key.
  fold key in Hmiss. rewrite Hmiss.
  cbn [def1 fn_body fn_name get_url_def urlfetch]. fold fetched.
  destruct (urlfetch_fetch u); reflexivity.
Qed.

Lemma get_url_cached u w v :
  memcache w !! global_key get_url (PStr u) = Some v -> truthy v = true ->
  apply get_url [PStr u] w = (Return v, log (EvCacheGet (global_key get_url (PStr u))) w).
Proof.
  intros Hv Ht. unfold apply, get_url, cacheable. cbn [fn_body].
  rewrite (call_cached None (PInt CACHE_EXPIRATION) _ _ (PStr u)) by reflexivity.
  cbv zeta. change (global_key _ (PStr u)) with (global_key get_url (PStr u)).
  rewrite Hv. cbn [from_option id]. rewrite Ht. reflexivity.
Qed.

(** Past the call of [get_url], the body of [get_friendfeed_profile] only
    reads the answer: its outcome is the same in every world. *)
Lemma profile_outcome_of_answer nickname r :
  truthy nickname = true ->
  exists out, forall w w',
    apply get_url [PStr (profile_api_url nickname)] w = (Return (PFetched r), w') ->
    get_friendfeed_profile_def nickname w = (out, w').
Proof.
  intros Hn.
  assert (Hrun : forall w w',
    apply get_url [PStr (profile_api_url nickname)] w = (Return (PFetched r), w') ->
    get_friendfeed_profile_def nickname w =
    (if (status_code r =? 404)%Z then
       message <- lift (py_mod "User %s not found" (FmtOne nickname)) ;;
       raise (UserError message)
     else if (status_code r =? 401)%Z then
       message <- lift (py_mod "User %s is private" (FmtOne nickname)) ;;
       raise (UserError message)
     else if negb (status_code r =? 200)%Z then
       message <- lift (py_mod "Unknown friendfeed code" (FmtOne (PInt (status_code r)))) ;;
       raise (ServerError message)
     else
       if negb (truthy (PStr (content r))) then
         message <- lift (py_mod "could not load friendfeed user %s" (FmtOne nickname)) ;;
         raise (ServerError message)
       else
         friendfeed_profile <- lift (simplejson_loads (content r)) ;;
         if negb (truthy friendfeed_profile) then
           message <- lift (py_mod "could not parse friendfeed user %s" (FmtOne nickname)) ;;
           raise (ServerError message)
         else ret friendfeed_profile) w').
  { intros w w' Hget. unfold get_friendfeed_profile_def. rewrite Hn. cbn [negb].
    unfold bind at 1. unfold lift at 1. rewrite profile_api_url_format.
    unfold bind at 1. rewrite Hget. reflexivity. }
  destruct (status_code r =? 404)%Z eqn:E404.
  { eexists. intros w w' Hget. rewrite (Hrun w w' Hget), ?E404.
    rewrite format_not_found. reflexivity. }
  destruct (status_code r =? 401)%Z eqn:E401.
  { eexists. intros w w' Hget. rewrite (Hrun w w' Hget), ?E404, ?E401.
    rewrite format_private. reflexivity. }
  destruct (status_code r =? 200)%Z eqn:E200.
  2:{ eexists. intros w w' Hget. rewrite (Hrun w w' Hget), ?E404, ?E401, ?E200.
      cbn [negb]. rewrite format_unknown_code. reflexivity. }
  destruct (truthy (PStr (content r))) eqn:Ec.
  2:{ eexists. intros w w' Hget. rewrite (Hrun w w' Hget), ?E404, ?E401, ?E200, ?Ec.
      cbn [negb]. rewrite format_could_not_load. reflexivity. }
  destruct (simplejson_loads (content r)) as [profile|e] eqn:El.
  2:{ eexists. intros w w' Hget. rewrite (Hrun w w' Hget), ?E404, ?E401, ?E200, ?Ec.
      cbn [negb]. unfold bind, lift. rewrite ?El. reflexivity. }
  destruct (truthy profile) eqn:Ep.
  - eexists. intros w w' Hget. rewrite (Hrun w w' Hget), ?E404, ?E401, ?E200, ?Ec.
    cbn [negb]. unfold bind, lift. rewrite ?El, ?Ep. reflexivity.
  - eexists. intros w w' Hget. rewrite (Hrun w w' Hget), ?E404, ?E401, ?E200, ?Ec.
    cbn [negb]. unfold bind at 1. unfold lift at 1. rewrite ?El, ?Ep. cbn [negb].
    rewrite format_could_not_parse. reflexivity.
Qed.

Lemma profile_key_is_not_url_key nickname u :
  global_key get_friendfeed_profile nickname <> global_key get_url (PStr u).
Proof. apply global_key_neq; [reflexivity | reflexivity | reflexivity | discriminate]. Qed.

(** X6. A lookup of a profile that went to the network is answered from
    memcache when repeated, whatever the answer was: starting with
    neither the profile nor the URL cached, the first call fetches once,
    and the same call made right after gives the same outcome (the same
    profile, or the same exception) without a fetch.  A "not found" or a
    "private" is thus remembered as long as the stored answer lives. *)
Theorem get_friendfeed_profile_repeat_is_served_from_cache nickname r w :
  truthy nickname = true ->
  urlfetch_fetch (profile_api_url nickname) = Return r ->
  memcache w !! global_key get_url (PStr (profile_api_url nickname)) = None ->
  memcache w !! global_key get_friendfeed_profile nickname = None ->
  exists out w1 w2,
    apply get_friendfeed_profile [nickname] w = (out, w1) /\
    apply get_friendfeed_profile [nickname] w1 = (out, w2) /\
    count is_fetch (trace w1) = S (count is_fetch (trace w)) /\
    count is_fetch (trace w2) = count is_fetch (trace w1).
Proof.
  intros Hn Hfetch Hu Hp.
  set (u := profile_api_url nickname) in *.
  set (ku := global_key get_url (PStr u)) in *.
  set (kp := global_key get_friendfeed_profile nickname) in *.
  assert (Hne : kp <> ku) by apply profile_key_is_not_url_key.
  destruct (profile_outcome_of_answer nickname r Hn) as [out Hout].
  assert (Hcall : forall w0,
            truthy (default PNone (memcache w0 !! kp)) = false ->
            apply get_friendfeed_profile [nickname] w0 =
            match get_friendfeed_profile_def nickname
                    (log (EvCall "get_friendfeed_profile") (log (EvCacheGet kp) w0)) with
            | (Return v, w') =>
                if truthy v
                then (Return v, snd (memcache_add kp v (PInt CACHE_EXPIRATION) w'))
                else (Return v, w')
            | (Raise e, w') => (Raise e, w')
            end).
  { intros w0 Hmiss. unfold apply, get_friendfeed_profile, cacheable. cbn [fn_body].
    rewrite (call_cached None (PInt CACHE_EXPIRATION) _ _ nickname) by reflexivity.
    cbv zeta. change (global_key _ nickname) with kp. rewrite Hmiss. reflexivity. }
  (* the first call *)
  set (ws := log (EvCall "get_friendfeed_profile") (log (EvCacheGet kp) w)).
  set (wu := {| memcache := <[ku := PFetched r]> (memcache w);
                trace := trace (log (EvFetch u) (log (EvCall "get_url")
                                  (log (EvCacheGet ku) ws))) ++ [EvCacheAdd ku] |}).
  assert (Hfirst_url : apply get_url [PStr u] ws = (Return (PFetched r), wu)).
  { assert (Hfree : memcache ws !! ku = None) by exact Hu.
    rewrite get_url_fetches; fold ku; [|rewrite Hfree; reflexivity].
    cbv zeta. rewrite Hfetch. unfold memcache_add.
    change (memcache (log (EvFetch u) (log (EvCall "get_url") (log (EvCacheGet ku) ws))))
      with (memcache w).
    rewrite Hu. reflexivity. }
  assert (Hbody1 : get_friendfeed_profile_def nickname ws = (out, wu))
    by (apply Hout, Hfirst_url).
  assert (Hfetch_wu : count is_fetch (trace wu) = S (count is_fetch (trace w))).
  { unfold wu, ws. cbn [log trace]. rewrite !count_app. cbn. lia. }
  assert (Hmiss0 : truthy (default PNone (memcache w !! kp)) = false)
    by (rewrite Hp; reflexivity).
  assert (Hkp_wu : memcache wu !! kp = None).
  { unfold wu. cbn [memcache].
    rewrite lookup_insert_ne by (intros E; apply Hne; symmetry; exact E).
    exact Hp. }
  (* a second call that misses the profile finds the answer of the URL *)
  assert (Hsecond_miss : forall w1,
            memcache w1 = memcache wu ->
            exists w2, apply get_friendfeed_profile [nickname] w1
                       = (match out with
                          | Return v => if truthy v then out else out
                          | Raise _ => out
                          end, w2) /\
                       (match out with Return v => truthy v = false | Raise _ => True end ->
                        count is_fetch (trace w2) = count is_fetch (trace w1))).
  { intros w1 Hmem.
    assert (Hm1 : truthy (default PNone (memcache w1 !! kp)) = false)
      by (rewrite Hmem, Hkp_wu; reflexivity).
    set (ws1 := log (EvCall "get_friendfeed_profile") (log (EvCacheGet kp) w1)).
    assert (Hurl : apply get_url [PStr u] ws1
                   = (Return (PFetched r), log (EvCacheGet ku) ws1)).
    { apply get_url_cached; [|reflexivity].
      fold ku. unfold ws1. cbn [log memcache]. rewrite Hmem. unfold wu. cbn [memcache].
      apply lookup_insert_eq. }
    rewrite (Hcall w1 Hm1). fold ws1. rewrite (Hout _ _ Hurl).
    destruct out as [v|e].
    - destruct (truthy v) eqn:Hv.
      + eexists. split; [reflexivity|]. intros Hf. discriminate Hf.
      + eexists. split; [reflexivity|]. intros _.
        unfold ws1. cbn [log trace]. rewrite !count_app. cbn. lia.
    - eexists. split; [reflexivity|]. intros _.
      unfold ws1. cbn [log trace]. rewrite !count_app. cbn. lia. }
  rewrite (Hcall w Hmiss0). fold ws. rewrite Hbody1.
  destruct out as [v|e].
  - destruct (truthy v) eqn:Hv.
    + (* the profile is stored and found again *)
      unfold memcache_add. rewrite Hkp_wu. cbn [snd].
      set (w1 := {| memcache := <[kp := v]> (memcache wu);
                    trace := trace wu ++ [EvCacheAdd kp] |}).
      exists (Return v), w1, (log (EvCacheGet kp) w1).
      split; [reflexivity|]. split; [|split].
      * unfold apply, get_friendfeed_profile, cacheable. cbn [fn_body].
        rewrite (call_cached None (PInt CACHE_EXPIRATION) _ _ nickname) by reflexivity.
        cbv zeta. change (global_key _ nickname) with kp.
        unfold w1. cbn [memcache]. rewrite lookup_insert_eq. cbn [from_option id].
        rewrite Hv. reflexivity.
      * unfold w1. cbn [trace]. rewrite count_app, Hfetch_wu. cbn. lia.
      * cbn [log trace]. rewrite count_app. cbn. lia.
    + destruct (Hsecond_miss wu eq_refl) as (w2 & Hsecond & Hcount).
      rewrite ?Hv in Hsecond.
      exists (Return v), wu, w2. split; [reflexivity|]. split; [exact Hsecond|].
      split; [exact Hfetch_wu|]. apply Hcount. rewrite ?Hv. reflexivity.
  - destruct (Hsecond_miss wu eq_refl) as (w2 & Hsecond & Hcount).
    exists (Raise e), wu, w2. split; [reflexivity|]. split; [exact Hsecond|].
    split; [exact Hfetch_wu|]. apply Hcount, I.
Qed.

(** X7. An exception of the fetch is not remembered: when the URL is not
    cached and [urlfetch.fetch] raises, [get_url] raises the same, memcache
    stays as it was, and the same call made right after fetches again. *)
Theorem get_url_retries_after_failure u e w :
  urlfetch_fetch u = Raise e ->
  truthy (default PNone (memcache w !! global_key get_url (PStr u))) = false ->
  exists w1 w2,
    apply get_url [PStr u] w = (Raise e, w1) /\
    memcache w1 = memcache w /\
    apply get_url [PStr u] w1 = (Raise e, w2) /\
    count is_fetch (trace w1) = S (count is_fetch (trace w)) /\
    count is_fetch (trace w2) = S (count is_fetch (trace w1)).
Proof.
  intros Hfail Hmiss.
  set (key := global_key get_url (PStr u)) in *.
  set (w1 := log (EvFetch u) (log (EvCall "get_url") (log (EvCacheGet key) w))).
  set (w2 := log (EvFetch u) (log (EvCall "get_url") (log (EvCacheGet key) w1))).
  exists w1, w2.
  assert (H1 : apply get_url [PStr u] w = (Raise e, w1)).
  { rewrite (get_url_fetches u w Hmiss). cbv zeta. rewrite Hfail. reflexivity. }
  assert (H2 : apply get_url [PStr u] w1 = (Raise e, w2)).
  { rewrite (get_url_fetches u w1 Hmiss). cbv zeta. rewrite Hfail. reflexivity. }
  split; [exact H1|]. split; [reflexivity|]. split; [exact H2|].
  split; unfold w2, w1; cbn [log trace]; rewrite !count_app; cbn; lia.
Qed.

End FetchFurther.

Lemma get_friendfeed_profile_repeat_is_served_from_cache_witness :
  exists out w1 w2,
    apply (@get_friendfeed_profile sample_runtime) [PStr "ghost"] empty_world = (out, w1) /\
    apply (@get_friendfeed_profile sample_runtime) [PStr "ghost"] w1 = (out, w2) /\
    count is_fetch (trace w1) = S (count is_fetch (trace empty_world)) /\
    count is_fetch (trace w2) = count is_fetch (trace w1).
Proof.
  exact (@get_friendfeed_profile_repeat_is_served_from_cache sample_runtime (PStr "ghost")
           {| status_code := 404; content := "" |} empty_world
           eq_refl eq_refl eq_refl eq_refl).
Defined.

Lemma get_url_retries_after_failure_witness :
  exists w1 w2,
    apply (@get_url offline_runtime) [PStr "http://friendfeed.com/"] empty_world
    = (Raise (DownloadError "ApplicationError: 2"), w1) /\
    memcache w1 = memcache empty_world /\
    apply (@get_url offline_runtime) [PStr "http://friendfeed.com/"] w1
    = (Raise (DownloadError "ApplicationError: 2"), w2) /\
    count is_fetch (trace w1) = S (count is_fetch (trace empty_world)) /\
    count is_fetch (trace w2) = S (count is_fetch (trace w1)).
Proof.
  exact (@get_url_retries_after_failure offline_runtime "http://friendfeed.com/"
           (DownloadError "ApplicationError: 2") empty_world eq_refl eq_refl).
Defined.

Example repeat_of_missing_user :
  let first := apply (@get_friendfeed_profile sample_runtime) [PStr "ghost"] empty_world in
  let second := apply (@get_friendfeed_profile sample_runtime) [PStr "ghost"] (snd first) in
  fst first = Raise (UserError "User ghost not found") /\
  fst second = Raise (UserError "User ghost not found") /\
  count is_fetch (trace (snd first)) = 1 /\ count is_fetch (trace (snd second)) = 1.
Proof. repeat split; reflexivity. Qed.

(** ** More on CSE patterns *)

Lemma re_match_app r s t : re_match r s = true -> re_match r (s +:+ t) = true.
Proof.
  revert r. induction s as [|c s IH]; intros r.
  - cbn [re_match]. rewrite orb_false_r. intros Hn.
    change ("" +:+ t) with t.
    destruct t; cbn [re_match]; rewrite Hn; reflexivity.
  - change (String c s +:+ t) with (String c (s +:+ t)). cbn [re_match].
    destruct (nullable r); [reflexivity|]. cbn [orb]. apply IH.
Qed.

Lemma dead_not_nullable r : dead r = true -> nullable r = false.
Proof.
  induction r; cbn [dead nullable]; try discriminate; try reflexivity.
  - intros Hd. rewrite (IHr1 Hd). reflexivity.
  - intros Hd. apply andb_prop in Hd as [H1 H2]. rewrite (IHr1 H1), (IHr2 H2). reflexivity.
Qed.

Lemma dead_deriv c r : dead r = true -> dead (deriv c r) = true.
Proof.
  induction r; cbn [dead deriv]; try discriminate; try reflexivity.
  - intros Hd. rewrite (dead_not_nullable _ Hd). cbn [dead]. apply IHr1, Hd.
  - intros Hd. apply andb_prop in Hd as [H1 H2]. rewrite (IHr1 H1), (IHr2 H2). reflexivity.
Qed.

Lemma re_match_dead r s : dead r = true -> re_match r s = false.
Proof.
  revert r. induction s as [|c s IH]; intros r Hd; cbn [re_match];
    rewrite (dead_not_nullable _ Hd); [reflexivity|].
  apply IH, dead_deriv, Hd.
Qed.

Lemma re_match_dead_prefix p r rest :
  no_match_within p r = true -> dead (derivs p r) = true ->
  re_match r (p +:+ rest) = false.
Proof.
  revert r. induction p as [|c p IH]; intros r Hn Hd.
  - apply re_match_dead, Hd.
  - change (String c p +:+ rest) with (String c (p +:+ rest)).
    cbn [no_match_within] in Hn. apply andb_prop in Hn as [Hnull Hn].
    apply negb_true_iff in Hnull. cbn [re_match]. rewrite Hnull.
    apply IH; assumption.
Qed.

Lemma py_in_char_replace1_same c new s :
  py_in (String c "") new = false ->
  py_in (String c "") (py_replace1 c new s) = false.
Proof.
  intros Hnew. induction s as [|a s IH]; [reflexivity|].
  cbn [py_replace1]. destruct (Ascii.eqb a c) eqn:Ea.
  - rewrite py_in_char_app, Hnew, IH. reflexivity.
  - rewrite py_in_char_cons, Ea, IH. reflexivity.
Qed.

Lemma escape_markup_free s : markup_free (escape s).
Proof.
  unfold markup_free, escape. split.
  - apply py_in_char_replace1_same. reflexivity.
  - rewrite py_in_char_replace1 by (reflexivity || discriminate).
    apply py_in_char_replace1_same. reflexivity.
Qed.

Lemma cse_url_markup_free url : markup_free (cse_url url).
Proof.
  unfold cse_url. cbv zeta. destruct (escape_markup_free url) as [Hlt Hgt].
  destruct (py_startswith (escape url) "http://") eqn:E; [|split; assumption].
  rewrite (startswith_split _ _ E) in Hlt, Hgt.
  rewrite py_in_char_app in Hlt, Hgt.
  apply orb_false_elim in Hlt as [_ Hlt]. apply orb_false_elim in Hgt as [_ Hgt].
  split; assumption.
Qed.

Lemma markup_free_app p q : markup_free p -> markup_free q -> markup_free (p +:+ q).
Proof.
  unfold markup_free. intros [H1 H2] [H3 H4].
  rewrite !py_in_char_app, H1, H2, H3, H4. split; reflexivity.
Qed.

(** Whatever [profile_url_to_cse_patterns] returns has between none and two
    patterns, each a well-formed one. *)
Lemma profile_url_patterns_sound v ps :
  profile_url_to_cse_patterns v = Return ps ->
  length ps <= 2 /\
  Forall (fun p => re_match VALID_CSE_RE p = true /\ markup_free p) ps.
Proof.
  unfold profile_url_to_cse_patterns.
  destruct (truthy v); cbn [negb]; [|intros [= <-]; split; [cbn; lia|constructor]].
  destruct v; try discriminate.
  destruct (re_match VALID_CSE_RE (cse_url s)) eqn:Hre; cbn [negb];
    [|intros [= <-]; split; [cbn; lia|constructor]].
  pose proof (cse_url_markup_free s) as Hfree.
  assert (Hstar : markup_free "*") by (split; reflexivity).
  assert (Hslash : markup_free "/*") by (split; reflexivity).
  destruct (py_endswith (cse_url s) "/"); [|destruct (py_in "?" (cse_url s))];
    intros [= <-]; (split; [cbn; lia|]);
    repeat (apply Forall_cons;
            [split; [auto using re_match_app | auto using markup_free_app]|]);
    apply Forall_nil.
Qed.

Lemma get_cse_names_loop_sound (P : string -> Prop) l :
  (forall v ps, profile_url_to_cse_patterns v = Return ps -> Forall P ps) ->
  forall acc out,
    Forall P acc -> get_cse_names_loop l acc = Return out ->
    Forall P out /\ length out <= length acc + 2 * length l.
Proof.
  intros HP. induction l as [|service l IH]; intros acc out Hacc.
  - cbn. intros [= <-]. split; [exact Hacc|lia].
  - cbn [get_cse_names_loop].
    destruct (py_getitem service "profileUrl") as [profile_url|e].
    + destruct (profile_url_to_cse_patterns profile_url) as [ps|e] eqn:Hps; [|discriminate].
      intros Hloop. pose proof (HP _ _ Hps) as HPps.
      destruct (profile_url_patterns_sound _ _ Hps) as [Hlen _].
      destruct (IH (acc ++ ps)%list out) as [Hall Hbound]; [|exact Hloop|].
      * apply Forall_app. split; assumption.
      * split; [exact Hall|]. rewrite length_app in Hbound. cbn [length]. lia.
    + destruct e; try discriminate. intros Hloop.
      destruct (IH acc out Hacc Hloop) as [Hall Hbound].
      split; [exact Hall|]. cbn [length]. lia.
Qed.

(** X8. When [get_cse_names] returns, every pattern in its list passes
    [VALID_CSE_RE] and holds neither [<] nor [>], and a profile whose
    services are a list yields at most two patterns per service. *)
Theorem get_cse_names_sound profile patterns :
  get_cse_names profile = Return patterns ->
  Forall (fun p => re_match VALID_CSE_RE p = true /\ markup_free p) patterns /\
  (forall services, py_getitem profile "services" = Return (PList services) ->
     length patterns <= 2 * length services).
Proof.
  unfold get_cse_names. cbv zeta.
  destruct (py_getitem profile "services") as [services|e] eqn:Hs.
  - destruct (py_iter services) as [l|e] eqn:Hiter; [|discriminate].
    intros Hloop.
    destruct (get_cse_names_loop_sound
                (fun p => re_match VALID_CSE_RE p = true /\ markup_free p) l
                (fun v ps Hps => proj2 (profile_url_patterns_sound v ps Hps))
                [] patterns (Forall_nil _) Hloop) as [Hall Hbound].
    split; [exact Hall|].
    intros services' [= ->]. cbn in Hiter. injection Hiter as <-. exact Hbound.
  - destruct e; try discriminate. intros [= <-].
    split; [constructor|]. intros services' Hs'. discriminate Hs'.
Qed.

Lemma get_cse_names_loop_app l1 l2 acc :
  get_cse_names_loop (l1 ++ l2) acc =
  match get_cse_names_loop l1 acc with
  | Return acc' => get_cse_names_loop l2 acc'
  | Raise e => Raise e
  end.
Proof.
  revert acc. induction l1 as [|service l1 IH]; intros acc; [reflexivity|].
  cbn [app get_cse_names_loop].
  destruct (py_getitem service "profileUrl") as [profile_url|e].
  - destruct (profile_url_to_cse_patterns profile_url); [apply IH|reflexivity].
  - destruct e; try reflexivity. apply IH.
Qed.

(** X9. A service that has no [profileUrl], or whose [profileUrl] is false
    (empty, [None]), adds nothing and stops nothing: the patterns are those
    of the same list without that service.  A profile without [services]
    has no patterns. *)
Theorem get_cse_names_skips_services_without_url (d : gmap string pyval) before service after :
  (d !! "services" = None -> get_cse_names (PDict d) = Return []) /\
  ((exists k, py_getitem service "profileUrl" = Raise (KeyError k)) \/
   (exists v, py_getitem service "profileUrl" = Return v /\ truthy v = false) ->
   get_cse_names (PDict (<["services" := PList (before ++ service :: after)]> d))
   = get_cse_names (PDict (<["services" := PList (before ++ after)]> d))).
Proof.
  split.
  - intros Hd. unfold get_cse_names, py_getitem. rewrite Hd. reflexivity.
  - intros Hskip. unfold get_cse_names. cbv zeta. cbn [py_getitem].
    rewrite !lookup_insert_eq. cbn [py_iter].
    rewrite !get_cse_names_loop_app.
    destruct (get_cse_names_loop before []) as [acc|e]; [|reflexivity].
    cbn [get_cse_names_loop].
    destruct Hskip as [[k Hk] | (v & Hv & Hfalse)].
    + rewrite Hk. reflexivity.
    + rewrite Hv. unfold profile_url_to_cse_patterns. rewrite Hfalse. cbn [negb].
      rewrite app_nil_r. reflexivity.
Qed.

(** X10. Only the scheme [http://] is taken off a profile URL, and once: a
    URL that starts with [https://], or with [http://] twice, yields no
    pattern at all; and no string that passes [VALID_CSE_RE], so no pattern
    that is ever returned, starts with [http:] or [https:]. *)
Theorem cse_patterns_carry_no_scheme :
  (forall rest, profile_url_to_cse_patterns (PStr ("https://" +:+ rest)) = Return []) /\
  (forall rest, profile_url_to_cse_patterns (PStr ("http://http://" +:+ rest)) = Return []) /\
  (forall v ps p, profile_url_to_cse_patterns v = Return ps -> In p ps ->
     py_startswith p "http:" = false /\ py_startswith p "https:" = false).
Proof.
  assert (Hhttp : forall rest, re_match VALID_CSE_RE ("http:" +:+ rest) = false).
  { intros rest. apply re_match_dead_prefix; reflexivity. }
  assert (Hhttps : forall rest, re_match VALID_CSE_RE ("https:" +:+ rest) = false).
  { intros rest. apply re_match_dead_prefix; reflexivity. }
  split; [|split].
  - intros rest.
    assert (Ht : truthy (PStr ("https://" +:+ rest)) = true) by reflexivity.
    assert (Hu : cse_url ("https://" +:+ rest) = "https:" +:+ ("//" +:+ escape rest))
      by reflexivity.
    unfold profile_url_to_cse_patterns. rewrite Ht. cbn [negb].
    rewrite Hu, Hhttps. reflexivity.
  - intros rest.
    assert (Ht : truthy (PStr ("http://http://" +:+ rest)) = true) by reflexivity.
    assert (Hu : cse_url ("http://http://" +:+ rest) = "http:" +:+ ("//" +:+ escape rest))
      by reflexivity.
    unfold profile_url_to_cse_patterns. rewrite Ht. cbn [negb].
    rewrite Hu, Hhttp. reflexivity.
  - intros v ps p Hps Hin.
    destruct (profile_url_patterns_sound v ps Hps) as [_ Hall].
    rewrite Forall_forall in Hall. destruct (Hall p Hin) as [Hre _].
    split.
    + destruct (py_startswith p "http:") eqn:E; [|reflexivity].
      rewrite (startswith_split _ _ E), Hhttp in Hre. discriminate Hre.
    + destruct (py_startswith p "https:") eqn:E; [|reflexivity].
      rewrite (startswith_split _ _ E), Hhttps in Hre. discriminate Hre.
Qed.

Lemma get_cse_names_sound_witness :
  Forall (fun p => re_match VALID_CSE_RE p = true /\ markup_free p)
    ["twitter.com/jdoe"; "twitter.com/jdoe/*"] /\
  (forall services, py_getitem (PDict sample_profile) "services" = Return (PList services) ->
     length ["twitter.com/jdoe"; "twitter.com/jdoe/*"] <= 2 * length services).
Proof.
  exact (get_cse_names_sound (PDict sample_profile)
           ["twitter.com/jdoe"; "twitter.com/jdoe/*"] eq_refl).
Defined.

Lemma get_cse_names_skips_services_without_url_witness :
  get_cse_names
    (PDict (<["services" :=
                PList ([PDict (<["profileUrl" := PStr "http://twitter.com/jdoe"]> ∅)]
                       ++ PDict (<["name" := PStr "blog"]> ∅)
                       :: [PDict (<["profileUrl" := PStr "http://flickr.com/jdoe/"]> ∅)])]> ∅))
  = get_cse_names
      (PDict (<["services" :=
                  PList ([PDict (<["profileUrl" := PStr "http://twitter.com/jdoe"]> ∅)]
                         ++ [PDict (<["profileUrl" := PStr "http://flickr.com/jdoe/"]> ∅)])]> ∅)).
Proof.
  apply (proj2 (get_cse_names_skips_services_without_url ∅
                  [PDict (<["profileUrl" := PStr "http://twitter.com/jdoe"]> ∅)]
                  (PDict (<["name" := PStr "blog"]> ∅))
                  [PDict (<["profileUrl" := PStr "http://flickr.com/jdoe/"]> ∅)])).
  left. exists "profileUrl". reflexivity.
Defined.

(** ** Friend nicknames *)

Lemma is_upper_lower_char c : is_upper (lower_char c) = false.
Proof.
  destruct c as [[] [] [] [] [] [] [] []]; reflexivity.
Qed.

Lemma has_upper_py_lower s : has_upper (py_lower s) = false.
Proof.
  induction s as [|c s IH]; [reflexivity|].
  cbn [py_lower has_upper]. rewrite is_upper_lower_char, IH. reflexivity.
Qed.

Lemma py_lower_idempotent s : py_lower (py_lower s) = py_lower s.
Proof. apply py_lower_no_upper, has_upper_py_lower. Qed.

Lemma py_lower_not_empty s : s <> "" -> py_lower s <> "".
Proof. destruct s; [congruence|discriminate]. Qed.

Lemma get_friend_nicknames_loop_sound l :
  forall acc out,
    Forall (fun n => n <> "" /\ has_upper n = false) acc ->
    get_friend_nicknames_loop l acc = Return out ->
    Forall (fun n => n <> "" /\ has_upper n = false) out /\
    length out <= length acc + length l.
Proof.
  induction l as [|subscription l IH]; intros acc out Hacc.
  - cbn. intros [= <-]. split; [exact Hacc|lia].
  - cbn [get_friend_nicknames_loop].
    assert (Hskip : get_friend_nicknames_loop l acc = Return out ->
                    Forall (fun n => n <> "" /\ has_upper n = false) out /\
                    length out <= length acc + length (subscription :: l)).
    { intros Hloop. destruct (IH acc out Hacc Hloop) as [Hall Hbound].
      split; [exact Hall|]. cbn [length]. lia. }
    destruct (py_getitem subscription "nickname") as [friend_nickname|e]; [|exact Hskip].
    destruct (truthy friend_nickname) eqn:Ht; cbn [negb]; [|exact Hskip].
    destruct friend_nickname; try discriminate.
    intros Hloop.
    destruct (IH (acc ++ [py_lower s])%list out) as [Hall Hbound]; [|exact Hloop|].
    + apply Forall_app. split; [exact Hacc|]. constructor; [|constructor].
      split; [|apply has_upper_py_lower].
      apply py_lower_not_empty, truthy_PStr, Ht.
    + split; [exact Hall|]. rewrite length_app in Hbound. cbn [length] in *. lia.
Qed.

(** X11. When [get_friend_nicknames] returns, every nickname in its list is
    non-empty and free of upper-case letters, and a profile whose
    subscriptions are a list yields at most one nickname per
    subscription. *)
Theorem get_friend_nicknames_sound profile nicknames :
  get_friend_nicknames profile = Return nicknames ->
  Forall (fun n => n <> "" /\ has_upper n = false) nicknames /\
  (forall subscriptions,
     py_getitem profile "subscriptions" = Return (PList subscriptions) ->
     length nicknames <= length subscriptions).
Proof.
  unfold get_friend_nicknames. cbv zeta.
  destruct (py_getitem profile "subscriptions") as [subscriptions|e]; [|discriminate].
  destruct (py_iter subscriptions) as [l|e] eqn:Hiter; [|discriminate].
  intros Hloop.
  destruct (get_friend_nicknames_loop_sound l [] nicknames (Forall_nil _) Hloop)
    as [Hall Hbound].
  split; [exact Hall|].
  intros subscriptions' [= ->]. cbn in Hiter. injection Hiter as <-. exact Hbound.
Qed.

Lemma get_friend_nicknames_loop_app l1 l2 acc :
  get_friend_nicknames_loop (l1 ++ l2) acc =
  match get_friend_nicknames_loop l1 acc with
  | Return acc' => get_friend_nicknames_loop l2 acc'
  | Raise e => Raise e
  end.
Proof.
  revert acc. induction l1 as [|subscription l1 IH]; intros acc; [reflexivity|].
  cbn [app get_friend_nicknames_loop].
  destruct (py_getitem subscription "nickname") as [friend_nickname|e]; [|apply IH].
  destruct (truthy friend_nickname); cbn [negb]; [|apply IH].
  destruct friend_nickname; try reflexivity. apply IH.
Qed.

(** X12. A profile without [subscriptions] makes [get_friend_nicknames]
    raise [KeyError] (where [get_cse_names] returns the empty list for a
    profile without [services]).  A subscription whose nickname cannot be
    read, for whatever reason, or is false, is skipped: the nicknames are
    those of the same list without that subscription. *)
Theorem get_friend_nicknames_missing_data (d : gmap string pyval) before subscription after :
  (d !! "subscriptions" = None ->
   get_friend_nicknames (PDict d) = Raise (KeyError "subscriptions") /\
   (d !! "services" = None -> get_cse_names (PDict d) = Return [])) /\
  ((exists e, py_getitem subscription "nickname" = Raise e) \/
   (exists v, py_getitem subscription "nickname" = Return v /\ truthy v = false) ->
   get_friend_nicknames
     (PDict (<["subscriptions" := PList (before ++ subscription :: after)]> d))
   = get_friend_nicknames (PDict (<["subscriptions" := PList (before ++ after)]> d))).
Proof.
  split.
  - intros Hd. split.
    + unfold get_friend_nicknames, py_getitem. rewrite Hd. reflexivity.
    + intros Hs. unfold get_cse_names, py_getitem. rewrite Hs. reflexivity.
  - intros Hskip. unfold get_friend_nicknames. cbv zeta. cbn [py_getitem].
    rewrite !lookup_insert_eq. cbn [py_iter].
    rewrite !get_friend_nicknames_loop_app.
    destruct (get_friend_nicknames_loop before []) as [acc|e]; [|reflexivity].
    cbn [get_friend_nicknames_loop].
    destruct Hskip as [[e He] | (v & Hv & Hfalse)].
    + rewrite He. reflexivity.
    + rewrite Hv, Hfalse. reflexivity.
Qed.

Lemma get_friend_nicknames_sound_witness :
  Forall (fun n => n <> "" /\ has_upper n = false) ["jdoe"; "bob"] /\
  (forall subscriptions,
     py_getitem
       (PDict (<["subscriptions" :=
                   PList [PDict (<["nickname" := PStr "JDoe"]> ∅);
                          PDict (<["nickname" := PStr ""]> ∅);
                          PStr "stray";
                          PDict (<["nickname" := PStr "Bob"]> ∅)]]> ∅))
       "subscriptions" = Return (PList subscriptions) ->
     length ["jdoe"; "bob"] <= length subscriptions).
Proof.
  exact (get_friend_nicknames_sound
           (PDict (<["subscriptions" :=
                       PList [PDict (<["nickname" := PStr "JDoe"]> ∅);
                              PDict (<["nickname" := PStr ""]> ∅);
                              PStr "stray";
                              PDict (<["nickname" := PStr "Bob"]> ∅)]]> ∅))
           ["jdoe"; "bob"] eq_refl).
Defined.

Lemma get_friend_nicknames_missing_data_witness :
  get_friend_nicknames (PDict sample_profile) = Raise (KeyError "subscriptions") /\
  get_friend_nicknames
    (PDict (<["subscriptions" :=
                PList ([PDict (<["nickname" := PStr "JDoe"]> ∅)]
                       ++ PInt 7 :: [PDict (<["nickname" := PStr "Bob"]> ∅)])]> ∅))
  = get_friend_nicknames
      (PDict (<["subscriptions" :=
                  PList ([PDict (<["nickname" := PStr "JDoe"]> ∅)]
                         ++ [PDict (<["nickname" := PStr "Bob"]> ∅)])]> ∅)).
Proof.
  split.
  - apply (proj1 (get_friend_nicknames_missing_data sample_profile [] PNone [])).
    reflexivity.
  - apply (proj2 (get_friend_nicknames_missing_data ∅
                    [PDict (<["nickname" := PStr "JDoe"]> ∅)] (PInt 7)
                    [PDict (<["nickname" := PStr "Bob"]> ∅)])).
    left. eexists. reflexivity.
Defined.

(** ** More on the views *)

Lemma never_redirects_bind {A} (m : M A) (k : A -> M pyval) :
  (forall a, never_redirects (k a)) -> never_redirects (bind m k).
Proof.
  intros Hk w location. unfold bind.
  destruct (m w) as [[a|e] w']; [apply Hk|discriminate].
Qed.

Section ViewsFurther.
Context `{Runtime}.

Lemma never_redirects_TemplateResponse name data status content_type :
  never_redirects (TemplateResponse name data status content_type).
Proof.
  intros w location. unfold TemplateResponse. cbn [fst].
  destruct (template_render _ _); discriminate.
Qed.

Lemma per_user_view_past_guard view r nickname :
  In view per_user_views -> py_islower (path r) = true ->
  never_redirects (view (PRequest r) nickname).
Proof.
  intros Hin Hlow.
  assert (Hcases : view = UserView_def \/ view = OsdView_def \/ view = CrefView_def \/
                   view = AnnotationView_def \/ view = AnnotationListView_def).
  { unfold per_user_views in Hin. cbn [In] in Hin. intuition auto. }
  assert (Hguard : forall k : M pyval,
            never_redirects k ->
            never_redirects
              (rpath <- lift (request_path (PRequest r)) ;;
               if negb (py_islower rpath)
               then ret (PResponse (HTTPMovedPermanently (py_lower rpath)))
               else k)).
  { intros k Hk w location. unfold bind at 1. unfold lift at 1. cbn [request_path].
    rewrite Hlow. cbn [negb]. apply Hk. }
  destruct Hcases as [-> | [-> | [-> | [-> | ->]]]].
  - unfold UserView_def. apply Hguard.
    repeat (apply never_redirects_bind; intros ?).
    apply never_redirects_TemplateResponse.
  - unfold OsdView_def. apply Hguard.
    repeat (apply never_redirects_bind; intros ?).
    apply never_redirects_TemplateResponse.
  - unfold CrefView_def. apply Hguard.
    apply never_redirects_bind. intros [[? ?] ?].
    apply never_redirects_TemplateResponse.
  - unfold AnnotationView_def. apply Hguard.
    apply never_redirects_bind. intros ?.
    apply never_redirects_TemplateResponse.
  - unfold AnnotationListView_def. apply Hguard.
    repeat (apply never_redirects_bind; intros ?).
    apply never_redirects_TemplateResponse.
Qed.

(** X13. The case redirect cannot loop on a per-user route.  The
    lower-cased form of any path that starts with [/friendfeed/] passes
    [islower], and a per-user view given a path that passes [islower]
    answers with a rendered page or an exception, never with a permanent
    redirect.  So following the redirect of a per-user view leads to a page,
    not to another redirect. *)
Theorem case_redirect_settles_in_one_step rest nickname w :
  let target := py_lower ("/friendfeed/" +:+ rest) in
  py_islower target = true /\
  py_lower target = target /\
  forall r view location,
    path r = target ->
    In view per_user_views ->
    fst (view (PRequest r) nickname w)
    <> Return (PResponse (HTTPMovedPermanently location)).
Proof.
  intros target.
  assert (Hlow : py_islower target = true).
  { assert (E : target = "/friendfeed/" +:+ py_lower rest) by reflexivity.
    rewrite E. unfold py_islower.
    rewrite has_upper_app, has_lower_app, has_upper_py_lower. reflexivity. }
  split; [exact Hlow|]. split; [apply py_lower_idempotent|].
  intros r view location Hr Hin.
  apply (per_user_view_past_guard view r nickname Hin). rewrite Hr. exact Hlow.
Qed.

Lemma format_user_path n :
  py_mod "/friendfeed/%s/" (FmtOne (PStr n)) = Return ("/friendfeed/" +:+ n +:+ "/").
Proof. reflexivity. Qed.

(** X14. [UserRedirectView] raises the user error "nickname required" when
    the form has no nickname or an empty one, and touches nothing.  For any
    other nickname it answers "see other" with [/friendfeed/], the nickname
    as typed and a slash; that path passes the lower-case test of the user
    view exactly when the nickname has no upper-case letter, so a nickname
    typed with capitals costs a second redirect. *)
Theorem UserRedirectView_spec r w :
  (form r !! "nickname" = None \/ form r !! "nickname" = Some "" ->
   UserRedirectView_def (PRequest r) w = (Raise (UserError "nickname required"), w)) /\
  (forall n, form r !! "nickname" = Some n -> n <> "" ->
     UserRedirectView_def (PRequest r) w
     = (Return (PResponse (HTTPSeeOther ("/friendfeed/" +:+ n +:+ "/"))), w) /\
     py_islower ("/friendfeed/" +:+ n +:+ "/") = negb (has_upper n)).
Proof.
  split.
  - intros [Hn | Hn]; unfold UserRedirectView_def; rewrite Hn; reflexivity.
  - intros n Hn Hne. split.
    + unfold UserRedirectView_def. rewrite Hn. cbv zeta.
      assert (Ht : truthy (PStr n) = true) by (apply truthy_PStr, Hne).
      rewrite Ht. cbn [negb]. unfold bind, lift. rewrite format_user_path. reflexivity.
    + unfold py_islower. rewrite !has_upper_app, !has_lower_app.
      change (has_upper "/friendfeed/") with false.
      change (has_upper "/") with false.
      change (has_lower "/friendfeed/") with true.
      cbn [orb]. rewrite orb_false_r, andb_true_r. reflexivity.
Qed.

(** X15. What becomes of an exception of the profile lookup, on a path that
    passes the lower-case test.  [CrefView] catches a [UserError] and
    renders its template with [None] for the nickname and the name and the
    empty string for the annotations; any other exception leaves it as
    raised.  [UserView] catches nothing: whatever the lookup raises leaves
    it, a [UserError] included. *)
Theorem profile_errors_in_views r nickname e w w' :
  py_islower (path r) = true ->
  apply get_friendfeed_profile [nickname] w = (Raise e, w') ->
  (is_UserError e = true ->
   CrefView_def (PRequest r) nickname w
   = TemplateResponse "cref.tmpl"
       (Some (<["nickname" := PNone]>
                (<["name" := PNone]> (<["annotations" := PStr ""]> ∅))))
       STATUS_OK CREF_MIMETYPE w') /\
  (is_UserError e = false -> CrefView_def (PRequest r) nickname w = (Raise e, w')) /\
  UserView_def (PRequest r) nickname w = (Raise e, w').
Proof.
  intros Hlow Hget.
  assert (Hcref : CrefView_def (PRequest r) nickname w =
            (locals <- try_except_UserError
               (friendfeed_profile <- apply get_friendfeed_profile [nickname] ;;
                name <- lift (get_friendfeed_name friendfeed_profile nickname) ;;
                annotations <- get_annotations nickname ;;
                ret (nickname, name, annotations))
               (ret (PNone, PNone, PStr "")) ;;
             let '(nickname, name, annotations) := locals in
             TemplateResponse "cref.tmpl"
               (Some (<["nickname" := nickname]>
                        (<["name" := name]> (<["annotations" := annotations]> ∅))))
               STATUS_OK CREF_MIMETYPE) w).
  { unfold CrefView_def. unfold bind at 1. unfold lift at 1. cbn [request_path].
    rewrite Hlow. reflexivity. }
  split; [|split].
  - intros He. rewrite Hcref. unfold bind at 1. unfold try_except_UserError.
    unfold bind at 1. rewrite Hget, He. reflexivity.
  - intros He. rewrite Hcref. unfold bind at 1. unfold try_except_UserError.
    unfold bind at 1. rewrite Hget, He. reflexivity.
  - unfold UserView_def. unfold bind at 1. unfold lift at 1. cbn [request_path].
    rewrite Hlow. cbn [negb]. unfold bind at 1. rewrite Hget. reflexivity.
Qed.

End ViewsFurther.

Lemma UserRedirectView_spec_witness :
  @UserRedirectView_def sample_runtime (sample_request "/user/") empty_world
  = (Raise (UserError "nickname required"), empty_world) /\
  (@UserRedirectView_def sample_runtime
     (PRequest {| path := "/user/"; form := <["nickname" := "JDoe"]> ∅ |}) empty_world
   = (Return (PResponse (HTTPSeeOther "/friendfeed/JDoe/")), empty_world) /\
   py_islower "/friendfeed/JDoe/" = false).
Proof.
  split.
  - apply (proj1 (@UserRedirectView_spec sample_runtime
                    {| path := "/user/"; form := ∅ |} empty_world)).
    left. reflexivity.
  - apply (proj2 (@UserRedirectView_spec sample_runtime
                    {| path := "/user/"; form := <["nickname" := "JDoe"]> ∅ |} empty_world)
             "JDoe"); [reflexivity | discriminate].
Defined.

Lemma profile_errors_in_views_witness :
  let r := {| path := "/friendfeed/ghost/cref/"; form := ∅ |} in
  let w' := snd (apply (@get_friendfeed_profile sample_runtime) [PStr "ghost"] empty_world) in
  fst (@CrefView_def sample_runtime (PRequest r) (PStr "ghost") empty_world)
  = Return (PResponse (Response "200 OK" "text/xml" "rendered templates/cref.tmpl")) /\
  @UserView_def sample_runtime (PRequest r) (PStr "ghost") empty_world
  = (Raise (UserError "User ghost not found"), w').
Proof.
  intros r w'.
  destruct (@profile_errors_in_views sample_runtime r (PStr "ghost")
              (UserError "User ghost not found") empty_world w' eq_refl eq_refl)
    as (Hcref & _ & Huser).
  split; [|exact Huser].
  rewrite (Hcref eq_refl). reflexivity.
Defined.

(** ** More on the dispatcher *)

Section DispatcherFurther.
Context `{Runtime}.

Lemma register_appends self c :
  exists added,
    bindings (_urls (register self c)) = (bindings (_urls self) ++ added)%list /\
    (forall pattern f error_handler,
       In (pattern, GET, _make_request f error_handler) added ->
       py_endswith pattern "/" = true ->
       In (py_slice_0_m1 pattern, GET, wsgi_function _redirect_with_slash) added) /\
    match c with
    | RegGet pattern _ _ => length added = if py_endswith pattern "/" then 2 else 1
    | RegPost _ _ _ => length added = 1
    | RegNotFound _ | RegError _ => added = []
    end.
Proof.
  destruct c as [pattern f eh | pattern f eh | f | f]; cbn [register].
  - unfold add_get_handler. cbv zeta. cbn [_urls].
    destruct (py_endswith pattern "/") eqn:Hslash.
    + eexists. split; [cbn [router_add bindings]; rewrite <- app_assoc; reflexivity|].
      split; [|reflexivity].
      intros p g h Hin _. cbn [app In] in Hin |- *.
      destruct Hin as [[= <- <- <-] | [[=] | []]]. right. left. reflexivity.
    + eexists. split; [reflexivity|]. split; [|reflexivity].
      intros p g h Hin Hp. cbn [In] in Hin.
      destruct Hin as [[= <- <- <-] | []]. rewrite Hp in Hslash. discriminate.
  - eexists. split; [reflexivity|]. split; [|reflexivity].
    intros p g h Hin _. cbn [In] in Hin. destruct Hin as [[=] | []].
  - exists []. split; [cbn; rewrite app_nil_r; reflexivity|].
    split; [intros ? ? ? []|reflexivity].
  - exists []. split; [cbn; rewrite app_nil_r; reflexivity|].
    split; [intros ? ? ? []|reflexivity].
Qed.

(** X16. Whatever registrations are made on a fresh dispatcher, and in
    whatever order, every GET binding of a view under a pattern that ends
    with a slash is accompanied by a GET binding of [_redirect_with_slash]
    under the pattern without that slash. *)
Theorem registrations_keep_slash_redirects cs :
  slash_twinned (bindings (_urls (register_all new_Dispatcher cs))).
Proof.
  unfold register_all.
  assert (Hgen : forall d, slash_twinned (bindings (_urls d)) ->
                           slash_twinned (bindings (_urls (fold_left register cs d)))).
  { induction cs as [|c cs IH]; intros d Hd; [exact Hd|].
    cbn [fold_left]. apply IH.
    destruct (register_appends d c) as (added & -> & Htwin & _).
    intros p f eh Hin Hp. apply in_app_iff in Hin. apply in_app_iff.
    destruct Hin as [Hin|Hin]; [left; exact (Hd p f eh Hin Hp)|right; exact (Htwin p f eh Hin Hp)]. }
  apply Hgen. intros p f eh [].
Qed.

(** X17. Registration never removes or moves a binding: after any sequence
    of registrations the bindings are the earlier ones, in their order,
    followed by what was added.  Setting the error handler or the not-found
    handler adds no binding, a POST registration adds one, a GET
    registration one or, for a pattern that ends with a slash, two. *)
Theorem registrations_only_append self cs :
  (exists added,
     bindings (_urls (register_all self cs)) = (bindings (_urls self) ++ added)%list) /\
  (forall f, bindings (_urls (add_error_handler self f)) = bindings (_urls self)) /\
  (forall f, bindings (_urls (add_not_found_handler self f)) = bindings (_urls self)) /\
  (forall pattern f eh,
     length (bindings (_urls (add_post_handler self pattern f eh)))
     = S (length (bindings (_urls self)))) /\
  (forall pattern f eh,
     length (bindings (_urls (add_get_handler self pattern f eh)))
     = length (bindings (_urls self)) + if py_endswith pattern "/" then 2 else 1).
Proof.
  split; [|split; [|split; [|split]]].
  - unfold register_all. revert self.
    induction cs as [|c cs IH]; intros self.
    + exists []. cbn. rewrite app_nil_r. reflexivity.
    + cbn [fold_left]. destruct (IH (register self c)) as [added2 ->].
      destruct (register_appends self c) as (added1 & -> & _).
      exists (added1 ++ added2)%list. rewrite app_assoc. reflexivity.
  - reflexivity.
  - reflexivity.
  - intros pattern f eh.
    destruct (register_appends self (RegPost pattern f eh)) as (added & Hb & _ & Hlen).
    cbn [register] in Hb. rewrite Hb, length_app, Hlen. lia.
  - intros pattern f eh.
    destruct (register_appends self (RegGet pattern f eh)) as (added & Hb & _ & Hlen).
    cbn [register] in Hb. rewrite Hb, length_app, Hlen. reflexivity.
Qed.

Variable memcache_get_stats : M pyval.
Variable webob_Request : gmap string string -> webob_request.
Variable webob_respond : webob_response -> gmap string string -> result wsgi_reply.

(** X18. What the WSGI wrapper does with an exception of its view.
    Without an error handler the exception leaves the wrapper.  With
    [ExceptionView] as error handler, as in production, the reply is the
    page of [500.tmpl] with status 500, whatever the exception was, a
    [UserError] included, and in the world the failed view left; only when
    that template itself fails to render does an exception get out. *)
Theorem wsgi_call_error_path f environ routing_kwargs e w w' :
  apply f (PRequest (webob_Request environ) :: map snd (default [] routing_kwargs)) w
  = (Raise e, w') ->
  let page := os_path_join TEMPLATE_DIR "500.tmpl" in
  let guarded := _make_request f (Some (_make_request ExceptionView None)) in
  wsgi_call webob_Request webob_respond (_make_request f None) environ routing_kwargs w
  = (Raise e, w') /\
  (forall body, template_render page ∅ = Return body ->
     wsgi_call webob_Request webob_respond guarded environ routing_kwargs w
     = (webob_respond (Response "500 Server Error" "text/html" body) environ,
        log (EvRender page) w')) /\
  (forall e', template_render page ∅ = Raise e' ->
     wsgi_call webob_Request webob_respond guarded environ routing_kwargs w
     = (Raise e', log (EvRender page) w')).
Proof.
  intros Hf page guarded. split; [|split].
  - cbn [wsgi_call]. rewrite Hf. reflexivity.
  - intros body Hrender. unfold guarded. cbn [wsgi_call]. rewrite Hf.
    cbn [apply ExceptionView fn_body]. unfold TemplateResponse. cbv zeta.
    cbn [from_option id]. fold page. rewrite Hrender. reflexivity.
  - intros e' Hrender. unfold guarded. cbn [wsgi_call]. rewrite Hf.
    cbn [apply ExceptionView fn_body]. unfold TemplateResponse. cbv zeta.
    cbn [from_option id]. fold page. rewrite Hrender. reflexivity.
Qed.

Lemma init_unfolded software :
  let eh := if negb (py_startswith software "Dev")
            then Some (_make_request ExceptionView None) else None in
  let stats_view := StatsView memcache_get_stats in
  init memcache_get_stats (Some software) =
  Return
    {| _urls :=
         {| bindings :=
              [("/", GET, _make_request HomeView eh);
               ("", GET, wsgi_function _redirect_with_slash);
               ("/faq/", GET, _make_request FaqView eh);
               ("/faq", GET, wsgi_function _redirect_with_slash);
               ("/user/", POST, _make_request UserRedirectView eh);
               ("/friendfeed/{nickname:word}/", GET, _make_request UserView eh);
               ("/friendfeed/{nickname:word}", GET, wsgi_function _redirect_with_slash);
               ("/friendfeed/{nickname:word}/osd/", GET, _make_request OsdView eh);
               ("/friendfeed/{nickname:word}/osd", GET,
                wsgi_function _redirect_with_slash);
               ("/friendfeed/{nickname:word}/cref/", GET, _make_request CrefView eh);
               ("/friendfeed/{nickname:word}/cref", GET,
                wsgi_function _redirect_with_slash);
               ("/friendfeed/{nickname:word}/annotations/", GET,
                _make_request AnnotationView eh);
               ("/friendfeed/{nickname:word}/annotations", GET,
                wsgi_function _redirect_with_slash);
               ("/friendfeed/{nickname:word}/annotations/list/", GET,
                _make_request AnnotationListView eh);
               ("/friendfeed/{nickname:word}/annotations/list", GET,
                wsgi_function _redirect_with_slash);
               ("/statsstatsstats/", GET, _make_request stats_view eh);
               ("/statsstatsstats", GET, wsgi_function _redirect_with_slash)];
            handle404 := Some (_make_request NotFoundView None) |};
       _error_handler := eh |}.
Proof.
  intros eh stats_view. unfold init, eh.
  destruct (py_startswith software "Dev"); reflexivity.
Qed.

(** X19. [init] needs [SERVER_SOFTWARE]: without it, it raises [KeyError].
    With it, the error handler depends on nothing but whether the value
    starts with [Dev]: if it does not, every view that [init] binds to a
    route is wrapped with [ExceptionView] as its error handler; if it does,
    none has an error handler.  Either way the not-found view is wrapped
    without one, seventeen bindings are made, and only [/user/] answers to
    POST. *)
Theorem init_error_handling software d :
  init memcache_get_stats None = Raise (KeyError "SERVER_SOFTWARE") /\
  (init memcache_get_stats (Some software) = Return d ->
   (forall pattern method f eh,
      In (pattern, method, _make_request f eh) (bindings (_urls d)) ->
      eh = (if py_startswith software "Dev" then None
            else Some (_make_request ExceptionView None)) /\
      (method = POST <-> pattern = "/user/")) /\
   handle404 (_urls d) = Some (_make_request NotFoundView None) /\
   length (bindings (_urls d)) = 17).
Proof.
  split; [reflexivity|].
  rewrite init_unfolded. cbv zeta. intros [= <-]. cbn [_urls bindings handle404].
  split; [|split; reflexivity].
  intros pattern method f eh Hin. cbn [In] in Hin.
  repeat (destruct Hin as [Hin|Hin];
          [try discriminate Hin; injection Hin as <- <- <- <-;
           (split; [destruct (py_startswith software "Dev"); reflexivity
                   |split; intros Hx; (reflexivity || discriminate Hx)])|]).
  destruct Hin.
Qed.

End DispatcherFurther.

Lemma registrations_keep_slash_redirects_witness :
  In ("/faq", GET, wsgi_function (@_redirect_with_slash sample_runtime))
    (bindings (_urls (@register_all sample_runtime new_Dispatcher
                        [RegError (@ExceptionView sample_runtime);
                         RegPost "/user/" (@UserRedirectView sample_runtime) None;
                         RegGet "/faq/" (@FaqView sample_runtime) None]))).
Proof.
  refine (@registrations_keep_slash_redirects sample_runtime
            [RegError (@ExceptionView sample_runtime);
             RegPost "/user/" (@UserRedirectView sample_runtime) None;
             RegGet "/faq/" (@FaqView sample_runtime) None]
            "/faq/" (@FaqView sample_runtime)
            (Some (_make_request (@ExceptionView sample_runtime) None)) _ eq_refl).
  right. left. reflexivity.
Defined.

Lemma wsgi_call_error_path_witness :
  let environ : gmap string string := <["SCRIPT_NAME" := "/friendfeed/ghost/"]> ∅ in
  let routing_kwargs := Some [("nickname", PStr "ghost")] in
  let guarded := _make_request (@UserView sample_runtime)
                   (Some (_make_request (@ExceptionView sample_runtime) None)) in
  fst (wsgi_call sample_webob_Request sample_respond
         (_make_request (@UserView sample_runtime) None) environ routing_kwargs empty_world)
  = Raise (UserError "User ghost not found") /\
  fst (wsgi_call sample_webob_Request sample_respond
         guarded environ routing_kwargs empty_world)
  = Return {| reply_status := "500 Server Error";
              reply_headers := [("Content-Type", "text/html")];
              reply_body := ["rendered templates/500.tmpl"] |}.
Proof.
  intros environ routing_kwargs guarded.
  destruct (@wsgi_call_error_path sample_runtime sample_webob_Request sample_respond
              (@UserView sample_runtime) environ routing_kwargs
              (UserError "User ghost not found") empty_world
              (snd (apply (@UserView sample_runtime)
                      [PRequest (sample_webob_Request environ); PStr "ghost"] empty_world))
              eq_refl) as (Hbare & Hpage & _).
  split.
  - exact (f_equal fst Hbare).
  - exact (f_equal fst (Hpage "rendered templates/500.tmpl" eq_refl)).
Defined.

Lemma init_error_handling_witness :
  exists d,
    @init sample_runtime sample_stats (Some "Google Apphosting/1.0") = Return d /\
    handle404 (_urls d) = Some (_make_request (@NotFoundView sample_runtime) None) /\
    length (bindings (_urls d)) = 17.
Proof.
  eexists. split; [reflexivity|].
  exact (proj2 (proj2 (@init_error_handling sample_runtime sample_stats
                         "Google Apphosting/1.0" _) eq_refl)).
Defined.
